(** * redux-sessionstorage-simple: a shallow embedding and its properties

    The module under study persists parts of a Redux state tree in the
    browser's [sessionStorage].  This development embeds its functions
    ([lensPath], [realiseObject], [save], [load], [combineLoads], [clear]
    and the four type tests) and states the properties of its
    specification over that embedding.

    JavaScript values are modelled as finite trees.  The key-value store
    is a finite map from strings to strings.  Code that writes the store,
    the console or the debounce handle is written in a small state and
    exception monad over a record [World]. *)

From Stdlib Require Import ZArith Ascii String List.
From stdpp Require Import base option list gmap strings pretty.

Set Warnings "-register-all".

Local Open Scope string_scope.
Local Open Scope Z_scope.
Local Open Scope list_scope.

(** ** JavaScript values *)

(** Numbers.  The code observes a number only through [typeof],
    [isFinite], [Math.floor], strict equality and truthiness, so a finite
    number is either an integer or some non-integral number; [NFrac z]
    stands for a finite number strictly between [z] and [z + 1]. *)
Inductive number : Type :=
| NInt (z : Z)
| NFrac (z : Z)
| NNaN
| NInfinity (negative : bool).

(** Values.  An object is the ordered list of its own properties; an
    inherited property (the prototype chain) is not modelled. *)
Inductive value : Type :=
| JUndefined
| JNull
| JBool (b : bool)
| JNum (n : number)
| JStr (s : string)
| JArr (elements : list value)
| JObj (props : list (string * value)).

(** Exceptions the modelled code can raise. *)
Inductive exn : Type :=
| TypeError
| SyntaxError.

(** The outcome of evaluating an expression that may throw. *)
Inductive result (A : Type) : Type :=
| Returned (a : A)
| Threw (e : exn).
Arguments Returned {A} a.
Arguments Threw {A} e.

(** ToBoolean: the truthiness used by [if (x)] and [!x]. *)
Definition truthy (v : value) : bool :=
  match v with
  | JUndefined | JNull => false
  | JBool b => b
  | JNum (NInt z) => negb (z =? 0)
  | JNum NNaN => false
  | JNum _ => true
  | JStr s => negb (String.eqb s "")
  | JArr _ | JObj _ => true
  end.

(** *** Own properties *)

(** First binding of [k] in a property list. *)
Fixpoint assoc (k : string) (props : list (string * value)) : option value :=
  match props with
  | [] => None
  | (k', v) :: rest => if String.eqb k' k then Some v else assoc k rest
  end.

(** [o[k] = v] on the property list of [o]: overwrite in place, or append
    a new property. *)
Fixpoint assign (k : string) (v : value) (props : list (string * value))
  : list (string * value) :=
  match props with
  | [] => [(k, v)]
  | (k', v') :: rest =>
      if String.eqb k' k then (k, v) :: rest else (k', v') :: assign k v rest
  end.

(** The array index a property name denotes, among the first [n] ones:
    the name must be the canonical decimal form of the index. *)
Fixpoint index_of (k : string) (n : nat) : option nat :=
  match n with
  | O => None
  | S m =>
      match index_of k m with
      | Some i => Some i
      | None => if String.eqb (pretty m) k then Some m else None
      end
  end.

(** [obj[k]] on own properties.  Reading a property of [undefined] or
    [null] throws; a name that is not an own property reads as
    [undefined].  An array or a string has its indices and its [length].
    The members a value inherits from its prototype (constructor,
    __proto__, toString, ...) are outside this model: what is stated
    about a read through [get] is stated for the names that the value
    holds itself or that no prototype defines. *)
Definition get (obj : value) (k : string) : result value :=
  match obj with
  | JUndefined | JNull => Threw TypeError
  | JObj props => Returned (default JUndefined (assoc k props))
  | JArr l =>
      match index_of k (length l) with
      | Some i => Returned (nth i l JUndefined)
      | None =>
          if String.eqb k "length"
          then Returned (JNum (NInt (Z.of_nat (length l))))
          else Returned JUndefined
      end
  | JStr s =>
      match index_of k (String.length s) with
      | Some i => Returned (JStr (String.substring i 1 s))
      | None =>
          if String.eqb k "length"
          then Returned (JNum (NInt (Z.of_nat (String.length s))))
          else Returned JUndefined
      end
  | JBool _ | JNum _ => Returned JUndefined
  end.

(** ** lensPath *)

(** The call [lensPath([], obj)]: [path.length] is not 1, [path.slice(1)]
    is again empty and [path[0]] is [undefined], so the function descends
    through the property named ["undefined"] until it is missing. *)
Fixpoint lensPath_nil (obj : value) : result value :=
  match obj with
  | JUndefined => Returned JNull
  | JNull => Threw TypeError
  | JObj props =>
      (fix find (ps : list (string * value)) : result value :=
         match ps with
         | [] => Returned JNull
         | (k, v) :: rest =>
             if String.eqb k "undefined" then lensPath_nil v else find rest
         end) props
  | _ => Returned JNull
  end.

(** [lensPath(path, obj)]. *)
Fixpoint lensPath (path : list string) (obj : value) : result value :=
  match obj with
  | JUndefined => Returned JNull
  | _ =>
      match path with
      | [] => lensPath_nil obj
      | [k] => get obj k
      | k :: rest =>
          match get obj k with
          | Returned inner => lensPath rest inner
          | Threw e => Threw e
          end
      end
  end.

(** ** realiseObject *)

(** [s.split('.')] for a one-character separator: never empty. *)
Fixpoint split (d : ascii) (s : string) : list string :=
  match s with
  | EmptyString => [""]
  | String c s' =>
      if Ascii.eqb c d then "" :: split d s'
      else match split d s' with
           | seg :: segs => String c seg :: segs
           | [] => [String c ""]
           end
  end.

Definition delimiter : ascii := "."%char.

(** The inner helper: wraps the object in progress once per segment. *)
Fixpoint realiseObject_ (objectPathArr : list string) (objectInProgress : value)
  : value :=
  match objectPathArr with
  | [] => objectInProgress
  | k :: rest => realiseObject_ rest (JObj [(k, objectInProgress)])
  end.

(** [realiseObject(objectPath, objectInitialValue = {})]: the default
    parameter replaces an [undefined] argument by the empty object. *)
Definition realiseObject (objectPath : string) (objectInitialValue : value)
  : value :=
  let initial := match objectInitialValue with
                 | JUndefined => JObj []
                 | v => v
                 end in
  realiseObject_ (rev (split delimiter objectPath)) initial.

(** ** Utility functions *)

Definition isArray (v : value) : bool :=
  match v with JArr _ => true | _ => false end.

Definition isString (v : value) : bool :=
  match v with JStr _ => true | _ => false end.

Definition isFinite (n : number) : bool :=
  match n with NInt _ | NFrac _ => true | NNaN | NInfinity _ => false end.

Definition Math_floor (n : number) : number :=
  match n with NFrac z => NInt z | _ => n end.

(** [a === b] on numbers: [NaN] differs from itself. *)
Definition number_eq (a b : number) : bool :=
  match a, b with
  | NInt x, NInt y => x =? y
  | NFrac x, NFrac y => x =? y
  | NInfinity s, NInfinity t => Bool.eqb s t
  | _, _ => false
  end.

Definition isInteger (v : value) : bool :=
  match v with
  | JNum n => isFinite n && number_eq (Math_floor n) n
  | _ => false
  end.

(** [value !== null && typeof value === 'object']: arrays pass. *)
Definition isObject (v : value) : bool :=
  match v with JArr _ | JObj _ => true | _ => false end.

(** ** Module constants *)

Definition MODULE_NAME : string := "[Redux-SessionStorage-Simple]".
Definition NAMESPACE_DEFAULT : value := JStr "redux_sessionstorage_simple".
Definition STATES_DEFAULT : value := JArr [].
Definition DEBOUNCE_DEFAULT : value := JNum (NInt 0).
Definition IMMUTABLEJS_DEFAULT : value := JBool false.
Definition DISABLE_WARNINGS_DEFAULT : value := JBool false.

(** ** The world the module runs in *)

(** A call received by the console. *)
Inductive console_call : Type :=
| console_warn (tag message : string)
| console_error (tag message : string).

(** A pending timer set by [save]: its callback runs [_save] with the
    [states] and [namespace] of the middleware that scheduled it. *)
Record Timer : Type := mkTimer {
  timer_id : nat;
  timer_delay : Z;
  timer_states : list value;
  timer_namespace : string
}.

Record World : Type := mkWorld {
  sessionStorage : gmap string string;   (* the key-value store *)
  console : list console_call;           (* calls received, oldest first *)
  debounceTimeout : option nat;          (* the module-level handle; None is null *)
  timers : list Timer;                   (* the host's pending timers *)
  nextTimerId : nat;                     (* the next handle setTimeout returns *)
  reduxState : value                     (* what store.getState() returns *)
}.

Definition with_storage (s : gmap string string) (w : World) : World :=
  mkWorld s (console w) (debounceTimeout w) (timers w) (nextTimerId w) (reduxState w).

Definition with_console (c : list console_call) (w : World) : World :=
  mkWorld (sessionStorage w) c (debounceTimeout w) (timers w) (nextTimerId w) (reduxState w).

Definition with_reduxState (v : value) (w : World) : World :=
  mkWorld (sessionStorage w) (console w) (debounceTimeout w) (timers w) (nextTimerId w) v.

(** *** The monad: state passing over [World], with exceptions *)

Definition M (A : Type) : Type := World -> result A * World.

Definition ret {A} (a : A) : M A := fun w => (Returned a, w).

Definition bind {A B} (c : M A) (k : A -> M B) : M B :=
  fun w =>
    match c w with
    | (Returned a, w') => k a w'
    | (Threw e, w') => (Threw e, w')
    end.

Notation "'do' x <- c1 ; c2" := (bind c1 (fun x => c2))
  (at level 10, x name, c1 at level 100, c2 at level 200,
   format "'[v' 'do'  x  <-  c1 ; '/' c2 ']'").

(** Lift an expression that may throw. *)
Definition lift {A} (r : result A) : M A := fun w => (r, w).

(** A loop that updates a local variable. *)
Fixpoint foldM {A B} (f : B -> A -> M B) (b : B) (l : list A) : M B :=
  match l with
  | [] => ret b
  | x :: rest => do b' <- f b x; foldM f b' rest
  end.

(** [l.forEach(f)]. *)
Fixpoint forEach {A} (l : list A) (f : A -> M unit) : M unit :=
  match l with
  | [] => ret tt
  | x :: rest => do _ <- f x; forEach rest f
  end.

(** *** Host operations *)

Definition console_log (c : console_call) : M unit :=
  fun w => (Returned tt, with_console (console w ++ [c]) w).

(** [sessionStorage.getItem(key)]: the stored text, or [null]. *)
Definition getItem (key : string) : M (option string) :=
  fun w => (Returned (sessionStorage w !! key), w).

(** What the property read [sessionStorage[key]] gives.  A name that the
    Storage object inherits hides the item stored under it: [length] is
    the number of items, and any other member is a function or the
    prototype object. *)
Inductive property_read : Type :=
| ReadText (text : string)
| ReadMissing
| ReadLength (items : nat)
| ReadMember.

(** Truthiness of a property read: a function or an object is truthy. *)
Definition truthy_read (r : property_read) : bool :=
  match r with
  | ReadText text => negb (String.eqb text "")
  | ReadMissing => false
  | ReadLength items => negb (items =? 0)%nat
  | ReadMember => true
  end.

(** [sessionStorage[key] = text]. *)
Definition setItem (key text : string) : M unit :=
  fun w => (Returned tt, with_storage (<[key := text]> (sessionStorage w)) w).

Definition removeItem (key : string) : M unit :=
  fun w => (Returned tt, with_storage (delete key (sessionStorage w)) w).

(** [store.getState()]. *)
Definition getState : M value := fun w => (Returned (reduxState w), w).

(** Truthiness of what a read of the store gives: a missing key reads as
    [null] or [undefined], a present one as its text. *)
Definition truthy_item (item : option string) : bool :=
  match item with
  | Some text => negb (String.eqb text "")
  | None => false
  end.

(** [warn(disableWarnings)(warningMessage)]. *)
Definition warn (disableWarnings : value) (warningMessage : string) : M unit :=
  if negb (truthy disableWarnings)
  then console_log (console_warn MODULE_NAME warningMessage)
  else ret tt.

(** A destructuring default: it applies when the property is [undefined]. *)
Definition or_default (v d : value) : value :=
  match v with JUndefined => d | _ => v end.

(** What a validated option holds: the elements of an array, the text of
    a string, the value of an integer. *)
Definition array_elements (v : value) : list value :=
  match v with JArr l => l | _ => [] end.

Definition string_of (v : value) : string :=
  match v with JStr s => s | _ => "" end.

Definition integer_of (v : value) : Z :=
  match v with JNum (NInt z) => z | _ => 0 end.

(** The own enumerable properties of an object or an array, in the order
    a [for ... in] loop visits them, and their names. *)
Definition own_properties (v : value) : list (string * value) :=
  match v with
  | JObj props => props
  | JArr l => combine (map pretty (seq 0 (length l))) l
  | _ => []
  end.

Definition own_keys (v : value) : list string := map fst (own_properties v).

(** ** A sample host *)

(** Concrete host functions, for running the model on examples: a JSON
    printer (a non-integral number [NFrac z] is shown as [z] and a half),
    a parser that knows the literals only, the string conversion of
    primitive values and plain objects (an array is shown through its
    JSON text), and the member names of a standard Storage object. *)
Definition quote : string := String (ascii_of_nat 34) "".

Definition half_text (z : Z) : string :=
  if z <? 0 then "-" +:+ pretty (- z - 1) +:+ ".5" else pretty z +:+ ".5".

Definition join (texts : list string) : string :=
  match texts with
  | [] => ""
  | t :: rest => fold_left (fun acc x => acc +:+ "," +:+ x) rest t
  end.

Fixpoint sample_stringify (v : value) : string :=
  match v with
  | JUndefined => "undefined"
  | JNull => "null"
  | JBool true => "true"
  | JBool false => "false"
  | JNum (NInt z) => pretty z
  | JNum (NFrac z) => half_text z
  | JNum _ => "null"
  | JStr s => quote +:+ s +:+ quote
  | JArr l => "[" +:+ join (map sample_stringify l) +:+ "]"
  | JObj props =>
      "{" +:+
      join (map (fun kv => let '(k, x) := kv in
                           quote +:+ k +:+ quote +:+ ":" +:+ sample_stringify x)
                props)
      +:+ "}"
  end.

Definition sample_parse (text : string) : result value :=
  if String.eqb text "null" then Returned JNull
  else if String.eqb text "true" then Returned (JBool true)
  else if String.eqb text "false" then Returned (JBool false)
  else if String.eqb text "{}" then Returned (JObj [])
  else if String.eqb text "[]" then Returned (JArr [])
  else Threw SyntaxError.

Definition sample_ToString (v : value) : string :=
  match v with
  | JUndefined => "undefined"
  | JNull => "null"
  | JBool true => "true"
  | JBool false => "false"
  | JNum (NInt z) => pretty z
  | JNum (NFrac z) => half_text z
  | JNum NNaN => "NaN"
  | JNum (NInfinity false) => "Infinity"
  | JNum (NInfinity true) => "-Infinity"
  | JStr s => s
  | JArr l => join (map sample_stringify l)
  | JObj _ => "[object Object]"
  end.

(** The members of the Storage interface and of [Object.prototype],
    [length] aside. *)
Definition sample_storage_member (key : string) : bool :=
  existsb (String.eqb key)
    ["key"; "getItem"; "setItem"; "removeItem"; "clear"; "constructor";
     "__proto__"; "hasOwnProperty"; "isPrototypeOf"; "propertyIsEnumerable";
     "toLocaleString"; "toString"; "valueOf"; "__defineGetter__";
     "__defineSetter__"; "__lookupGetter__"; "__lookupSetter__"].

(** A world right after the module is loaded, with a given store and
    state. *)
Definition fresh_world (store : gmap string string) (state : value) : World :=
  mkWorld store [] None [] 1 state.

(** The rest of a pipeline that leaves the state as it is and returns the
    action. *)
Definition pass_through (action state : value) : value * value := (action, state).

(** ** The exported functions *)

Section Host.

(** What the host supplies.  [JSON_stringify v] is the text the store
    keeps when it is assigned [JSON.stringify(v)]; [JSON_parse] throws a
    [SyntaxError] on text that is not JSON; [ToString] is the string a
    non-string value becomes when it is added to a string. *)
Variable JSON_stringify : value -> string.
Variable JSON_parse : string -> result value.
Variable ToString : value -> string.

(** The names other than [length] that the host's Storage object inherits
    from its prototypes (getItem, setItem, constructor, ...). *)
Variable storage_member : string -> bool.

(** [sessionStorage[key]], read as a property. *)
Definition readProperty (key : string) : M property_read :=
  fun w =>
    (Returned
       (if String.eqb key "length" then ReadLength (size (sessionStorage w))
        else if storage_member key then ReadMember
        else match sessionStorage w !! key with
             | Some text => ReadText text
             | None => ReadMissing
             end),
     w).

(** [JSON.parse] of a property read.  A value that is not a string is
    first turned into one; the string form of a function or of the
    prototype object is not JSON. *)
Definition parse_read (r : property_read) : result value :=
  match r with
  | ReadText text => JSON_parse text
  | ReadMissing => JSON_parse (ToString JUndefined)
  | ReadLength items => JSON_parse (ToString (JNum (NInt (Z.of_nat items))))
  | ReadMember => Threw SyntaxError
  end.

(** [text + v]. *)
Definition add_string (text : string) (v : value) : string :=
  match v with
  | JStr s => text +:+ s
  | _ => text +:+ ToString v
  end.

(** The reports of the validations; [method] is save, load or clear. *)
Definition states_error (method : string) : console_call :=
  console_error MODULE_NAME
    ("'states' parameter in '" +:+ method +:+ "()' method was passed a non-array value. Setting default value instead. Check your '" +:+ method +:+ "()' method.").

Definition namespace_error (method : string) : console_call :=
  console_error MODULE_NAME
    ("'namespace' parameter in '" +:+ method +:+ "()' method was passed a non-string value. Setting default value instead. Check your '" +:+ method +:+ "()' method.").

Definition debounce_error : console_call :=
  console_error MODULE_NAME
    "'debounce' parameter in 'save()' method was passed a non-integer value. Setting default value instead. Check your 'save()' method.".

Definition validate_states (method : string) (states : value) : M (list value) :=
  if negb (isArray states)
  then
    do _ <- console_log (states_error method);
    ret (array_elements STATES_DEFAULT)
  else ret (array_elements states).

Definition validate_namespace (method : string) (namespace : value) : M string :=
  if negb (isString namespace)
  then
    do _ <- console_log (namespace_error method);
    ret (string_of NAMESPACE_DEFAULT)
  else ret (string_of namespace).

Definition validate_debounce (debounce : value) : M Z :=
  if negb (isInteger debounce)
  then
    do _ <- console_log debounce_error;
    ret (integer_of DEBOUNCE_DEFAULT)
  else ret (integer_of debounce).

(** *** save *)

Record SaveConfig : Type := mkSaveConfig {
  save_states : value;
  save_namespace : value;
  save_debounce : value
}.

(** Digs into [rootState] for the data to put in the store.  [state.split]
    is a method of strings only. *)
Definition getStateForSessionStorage (state rootState : value) : result value :=
  match state with
  | JStr s =>
      if (1 <? length (split delimiter s))%nat
      then lensPath (split delimiter s) rootState
      else lensPath [s] rootState
  | _ => Threw TypeError
  end.

(** The body of [states.forEach] in [_save]: one Selector Path. *)
Definition save_state (namespace : string) (state : value) : M unit :=
  do rootState <- getState;
  do stateForSessionStorage <- lift (getStateForSessionStorage state rootState);
  if truthy stateForSessionStorage
  then setItem (add_string (namespace +:+ "_") state)
               (JSON_stringify stateForSessionStorage)
  else removeItem (add_string (namespace +:+ "_") state).

(** The local function [_save], over the validated [states] and
    [namespace] of its middleware. *)
Definition _save (states : list value) (namespace : string) : M unit :=
  if (length states =? 0)%nat
  then
    do rootState <- getState;
    setItem namespace (JSON_stringify rootState)
  else forEach states (save_state namespace).

(** [clearTimeout(id)]. *)
Definition clearTimeout (id : nat) : M unit :=
  fun w =>
    (Returned tt,
     mkWorld (sessionStorage w) (console w) (debounceTimeout w)
             (List.filter (fun t => negb (timer_id t =? id)%nat) (timers w))
             (nextTimerId w) (reduxState w)).

(** [debounceTimeout = setTimeout(function () { _save(states, namespace) },
    delay)]: the host hands out a fresh handle and keeps the timer. *)
Definition setTimeout_save (states : list value) (namespace : string) (delay : Z)
  : M unit :=
  fun w =>
    (Returned tt,
     mkWorld (sessionStorage w) (console w) (Some (nextTimerId w))
             (timers w ++ [mkTimer (nextTimerId w) delay states namespace])
             (S (nextTimerId w)) (reduxState w)).

(** The current value of the module variable [debounceTimeout]. *)
Definition read_debounceTimeout : M (option nat) :=
  fun w => (Returned (debounceTimeout w), w).

(** A timer handle is truthy unless it is [null] or 0. *)
Definition truthy_handle (h : option nat) : bool :=
  match h with
  | Some id => negb (id =? 0)%nat
  | None => false
  end.

(** [next(action)], the rest of the pipeline: from the current state it
    gives its return value and the new state. *)
Definition call_next (next : value -> value -> value * value) (action : value)
  : M value :=
  fun w => (Returned (fst (next action (reduxState w))),
            with_reduxState (snd (next action (reduxState w))) w).

(** [save(config)(store)(next)(action)]: the middleware of one [save]
    call, run on one action.  The destructuring defaults come first; each
    validation assigns the variable it tests, so a later call of the same
    middleware starts from [save_variables config]. *)
Definition save (config : SaveConfig) (next : value -> value -> value * value)
    (action : value) : M value :=
  let states := or_default (save_states config) STATES_DEFAULT in
  let namespace := or_default (save_namespace config) NAMESPACE_DEFAULT in
  let debounce := or_default (save_debounce config) DEBOUNCE_DEFAULT in
  do returnValue <- call_next next action;
  do states <- validate_states "save" states;
  do namespace <- validate_namespace "save" namespace;
  do debounce <- validate_debounce debounce;
  do _ <- (if negb (debounce =? 0)
           then
             do handle <- read_debounceTimeout;
             do _ <- (if truthy_handle handle
                      then clearTimeout (default O handle)
                      else ret tt);
             setTimeout_save states namespace debounce
           else _save states namespace);
  ret returnValue.

(** The variables of the middleware after one call. *)
Definition save_variables (config : SaveConfig) : SaveConfig :=
  let states := or_default (save_states config) STATES_DEFAULT in
  let namespace := or_default (save_namespace config) NAMESPACE_DEFAULT in
  let debounce := or_default (save_debounce config) DEBOUNCE_DEFAULT in
  mkSaveConfig (if isArray states then states else STATES_DEFAULT)
               (if isString namespace then namespace else NAMESPACE_DEFAULT)
               (if isInteger debounce then debounce else DEBOUNCE_DEFAULT).

(** *** load *)

Record LoadConfig : Type := mkLoadConfig {
  load_states : value;
  load_immutablejs : value;
  load_namespace : value;
  load_preloadedState : value;
  load_disableWarnings : value
}.

(** Modelled from the spec: [objectMerge] is imported from the package
    object-merge, which is not part of this repository.  The spec's
    Shallow Merge overwrites, in a copy of [a], each top-level key of [b]
    (or inserts it if absent). *)
Definition objectMerge (a b : value) : value :=
  JObj (fold_left (fun acc kv => assign (fst kv) (snd kv) acc)
                  (own_properties b) (own_properties a)).

(** [immutablejs === true]. *)
Definition is_true (v : value) : bool :=
  match v with JBool true => true | _ => false end.

(** The advisory message for a key that is not in the store. *)
Definition invalid_load_message (key : string) : string :=
  "Invalid load '" +:+ key +:+ "' provided. Check your 'states' in 'load()'. If this is your first time running this app you may see this message. To disable it in future use the 'disableWarnings' flag, see documentation.".

(** The body of the [forEach] over [states]: one step on the local
    variable [loadedState]. *)
Definition load_state (namespace : string) (disableWarnings : value)
    (loadedState state : value) : M value :=
  do item <- getItem (add_string (namespace +:+ "_") state);
  if truthy_item item
  then
    do read <- readProperty (add_string (namespace +:+ "_") state);
    do parsed <- lift (parse_read read);
    do realised <- lift (match state with
                         | JStr s => Returned (realiseObject s parsed)
                         | _ => Threw TypeError
                         end);
    ret (objectMerge loadedState realised)
  else
    do _ <- warn disableWarnings
      (invalid_load_message (add_string (namespace +:+ "_") state));
    ret loadedState.

Definition load (config : LoadConfig) : M value :=
  let states := or_default (load_states config) STATES_DEFAULT in
  let immutablejs := or_default (load_immutablejs config) IMMUTABLEJS_DEFAULT in
  let namespace := or_default (load_namespace config) NAMESPACE_DEFAULT in
  let preloadedState := or_default (load_preloadedState config) (JObj []) in
  let disableWarnings :=
    or_default (load_disableWarnings config) DISABLE_WARNINGS_DEFAULT in
  do states <- validate_states "load" states;
  do namespace <- validate_namespace "load" namespace;
  do _ <- (if is_true immutablejs
           then warn disableWarnings "Support for Immutable.js data structures has been deprecated as of version 2.0.0. Please use version 1.4.0 if you require this functionality."
           else ret tt);
  if (length states =? 0)%nat
  then
    do read <- readProperty namespace;
    if truthy_read read
    then lift (parse_read read)
    else ret preloadedState
  else foldM (load_state namespace disableWarnings) preloadedState states.

(** *** combineLoads *)

(** The inner loop: [for (let state in load) combinedLoad[state] = load[state]]. *)
Definition copy_properties (load : value) (combinedLoad : list (string * value))
  : M (list (string * value)) :=
  foldM (fun combinedLoad state =>
           do v <- lift (get load state);
           ret (assign state v combinedLoad))
        combinedLoad (own_keys load).

(** The report for an argument that is not an object. *)
Definition invalid_load_error : console_call :=
  console_error MODULE_NAME
    "One or more loads provided to 'combineLoads()' is not a valid object. Ignoring the invalid load/s. Check your 'combineLoads()' method.".

(** The body of [loads.forEach]: one step on [combinedLoad]. *)
Definition combine_load (combinedLoad : list (string * value)) (load : value)
  : M (list (string * value)) :=
  do load <- (if negb (isObject load)
              then do _ <- console_log invalid_load_error; ret (JObj [])
              else ret load);
  copy_properties load combinedLoad.

Definition combineLoads (loads : list value) : M value :=
  do combinedLoad <- foldM combine_load [] loads;
  ret (JObj combinedLoad).

(** *** clear *)

(** [key.slice(0, n)]. *)
Definition slice0 (n : nat) (key : string) : string := String.substring 0 n key.

(** The keys a [for ... in] loop over the store visits. *)
Definition storage_keys : M (list string) :=
  fun w => (Returned (map fst (map_to_list (sessionStorage w))), w).

Definition clear (namespace : value) : M unit :=
  let namespace := or_default namespace NAMESPACE_DEFAULT in
  do namespace <- validate_namespace "clear" namespace;
  do keys <- storage_keys;
  forEach keys (fun key =>
    if String.eqb (slice0 (String.length namespace) key) namespace
    then removeItem key
    else ret tt).

(** ** The event loop *)

(** A pending timer fires: the host drops it and runs its callback. *)
Definition fire (t : Timer) : M unit :=
  do _ <- clearTimeout (timer_id t);
  _save (timer_states t) (timer_namespace t).

(** One step of the program: an action goes through a middleware, a
    pending timer fires, or the application calls [load], [clear] or
    [combineLoads]. *)
Inductive step : World -> World -> Prop :=
| step_dispatch config next action w :
    step w (snd (save config next action w))
| step_fire t w :
    t ∈ timers w -> step w (snd (fire t w))
| step_load config w :
    step w (snd (load config w))
| step_clear namespace w :
    step w (snd (clear namespace w))
| step_combineLoads loads w :
    step w (snd (combineLoads loads w)).

(** When the module is loaded [debounceTimeout] is [null] and no timer is
    pending; the host's timer handles are positive. *)
Definition initial (w : World) : Prop :=
  debounceTimeout w = None /\ timers w = [] /\ (0 < nextTimerId w)%nat.

Definition reachable (w : World) : Prop :=
  exists w0, initial w0 /\ rtc step w0 w.

(** ** Specification-side notions *)

(** The nested mapping with one key per segment, outermost first. *)
Fixpoint nested (segments : list string) (leaf : value) : value :=
  match segments with
  | [] => leaf
  | k :: rest => JObj [(k, nested rest leaf)]
  end.

(** [namespace] is a literal prefix of [key]. *)
Definition literal_prefix (namespace key : string) : Prop :=
  exists rest, key = namespace +:+ rest.


(** Every segment of the path is an own property on the way down: a key
    of the object, or an index of the array. *)
Fixpoint own_path (path : list string) (obj : value) : bool :=
  match path with
  | [] => true
  | k :: rest =>
      match obj with
      | JObj props =>
          match assoc k props with
          | Some inner => own_path rest inner
          | None => false
          end
      | JArr l =>
          match index_of k (length l) with
          | Some i => own_path rest (nth i l JUndefined)
          | None => false
          end
      | _ => false
      end
  end.

(** ** Notions used by the statements *)

(** [keeps proj c]: running [c] never changes the part [proj] of the
    world, whether it returns or throws. *)
Definition keeps {X A : Type} (proj : World -> X) (c : M A) : Prop :=
  forall w, proj (snd (c w)) = proj w.

(** The timer slot: the handle, the pending timers, the next handle. *)
Definition slot (w : World) : option nat * list Timer * nat :=
  (debounceTimeout w, timers w, nextTimerId w).

(** What the validations of [save] report, in order. *)
Definition save_reports (config : SaveConfig) : list console_call :=
  (if isArray (or_default (save_states config) STATES_DEFAULT)
   then [] else [states_error "save"]) ++
  (if isString (or_default (save_namespace config) NAMESPACE_DEFAULT)
   then [] else [namespace_error "save"]) ++
  (if isInteger (or_default (save_debounce config) DEBOUNCE_DEFAULT)
   then [] else [debounce_error]).

(** The world in which the middleware decides how to save: the action has
    gone through [next] and the validations have reported. *)
Definition validated_world (config : SaveConfig)
    (next : value -> value -> value * value) (action : value) (w : World) : World :=
  with_console (console w ++ save_reports config)
    (with_reduxState (snd (next action (reduxState w))) w).

(** The state [{count: v}] saved on the path count under the namespace
    app, in a store that holds app_count: what the store holds at
    app_count afterwards. *)
Definition saved_count (v : value) : option string :=
  sessionStorage
    (snd (save (mkSaveConfig (JArr [JStr "count"]) (JStr "app") JUndefined)
               pass_through JNull
               (fresh_world {["app_count" := "5"]} (JObj [("count", v)]))))
  !! "app_count".

(** The single-slot invariant, on the timer slot: handles are positive,
    and a pending timer is alone and is the one [debounceTimeout] names. *)
Definition slot_ok (s : option nat * list Timer * nat) : Prop :=
  let '(handle, pending, next_id) := s in
  (0 < next_id)%nat /\
  (pending = [] \/
   exists t, pending = [t] /\ handle = Some (timer_id t) /\ timer_id t <> O).

Definition single_slot (w : World) : Prop := slot_ok (slot w).

(** The namespace [clear] works with: its option after the default and
    the validation. *)
Definition clear_namespace (namespace : value) : string :=
  string_of (if isString (or_default namespace NAMESPACE_DEFAULT)
             then or_default namespace NAMESPACE_DEFAULT
             else NAMESPACE_DEFAULT).

(** Two computations agree when, run on worlds with the same store, they
    give the same outcome and leave the same store. *)
Definition agree {A : Type} (c c' : M A) : Prop :=
  forall w w', sessionStorage w = sessionStorage w' ->
    fst (c w) = fst (c' w') /\
    sessionStorage (snd (c w)) = sessionStorage (snd (c' w')).

(** ** Properties of the path lens *)

(** The two recursive cases of the lens on a defined object. *)
Lemma lensPath_single k obj :
  obj <> JUndefined -> lensPath [k] obj = get obj k.
Proof. destruct obj; congruence || reflexivity. Qed.

Lemma lensPath_step k k' rest obj :
  obj <> JUndefined ->
  lensPath (k :: k' :: rest) obj =
  match get obj k with
  | Returned inner => lensPath (k' :: rest) inner
  | Threw e => Threw e
  end.
Proof. destruct obj; congruence || reflexivity. Qed.

(** The lens on nested objects: it follows the segments one own property
    at a time. *)
Lemma lensPath_cons k k' rest props :
  lensPath (k :: k' :: rest) (JObj props) =
  lensPath (k' :: rest) (default JUndefined (assoc k props)).
Proof. reflexivity. Qed.

(** C1 (the code at the failing input).  The guard of [lensPath] tests
    [undefined] only: when a segment holds [null] and the path goes on,
    the property read of [null] throws a TypeError, and so does the lens
    on the object [null]; a missing segment gives [null] without a
    fault. *)
Theorem lensPath_faults_on_null :
  lensPath ["user"; "name"] (JObj [("user", JNull)]) = Threw TypeError /\
  lensPath ["name"] JNull = Threw TypeError /\
  getStateForSessionStorage (JStr "user.name") (JObj [("user", JNull)])
  = Threw TypeError /\
  lensPath ["user"; "name"] (JObj [("id", JNum (NInt 1))]) = Returned JNull.
Proof. repeat split. Qed.

(** ** Properties of the path realizer *)

Lemma realiseObject__nested segments done v :
  realiseObject_ (rev segments ++ done) v =
  realiseObject_ done (nested segments v).
Proof.
  revert done v. induction segments as [|k rest IH]; intros done v; simpl.
  - reflexivity.
  - rewrite <- app_assoc. simpl. rewrite IH. reflexivity.
Qed.

(** The realizer builds the nested mapping of the segments of its path. *)
Lemma realiseObject_nested p v :
  v <> JUndefined ->
  realiseObject p v = nested (split delimiter p) v.
Proof.
  intros Hv. unfold realiseObject.
  rewrite <- (app_nil_r (rev (split delimiter p))).
  rewrite realiseObject__nested. simpl.
  destruct v; congruence.
Qed.

Lemma split_nonempty d s : split d s <> [].
Proof.
  destruct s as [|c s]; simpl; [discriminate|].
  destruct (Ascii.eqb c d); [discriminate|].
  destruct (split d s); discriminate.
Qed.

(** C5.  [realiseObject] splits its path on the dot and nests one mapping
    per segment, innermost first: for every leaf value [v] (a value, not
    the absent [undefined], which the default parameter replaces),
    realize("a.b.c", v) is {a:{b:{c:v}}}, realize("x", v) is {x:v}, and in
    general the result is the nesting of the segments around [v]. *)
Theorem realiseObject_builds_nested_mapping (v : value) :
  v <> JUndefined ->
  realiseObject "a.b.c" v = JObj [("a", JObj [("b", JObj [("c", v)])])] /\
  realiseObject "x" v = JObj [("x", v)] /\
  forall p, realiseObject p v = nested (split delimiter p) v.
Proof.
  intros Hv. repeat split.
  - rewrite realiseObject_nested by exact Hv. reflexivity.
  - rewrite realiseObject_nested by exact Hv. reflexivity.
  - intros p. apply realiseObject_nested, Hv.
Qed.

(** ** Round trip of realization and lookup *)

Lemma objectMerge_empty_singleton k v :
  objectMerge (JObj []) (JObj [(k, v)]) = JObj [(k, v)].
Proof. reflexivity. Qed.

Lemma lensPath_nested segments T :
  segments <> [] ->
  lensPath segments (nested segments T) = Returned T.
Proof.
  induction segments as [|k rest IH]; [congruence|]. intros _.
  destruct rest as [|k' rest'].
  - simpl. rewrite String.eqb_refl. reflexivity.
  - change (nested (k :: k' :: rest') T)
      with (JObj [(k, nested (k' :: rest') T)]).
    rewrite lensPath_cons. simpl assoc. rewrite String.eqb_refl.
    apply IH. discriminate.
Qed.

(** C4.  Merging the empty mapping with realize(p, T) and reading the
    split path back through the lens gives [T] again, for every path [p]
    and every sub-tree value [T] (a value, not the absent [undefined]). *)
Theorem realise_lens_roundtrip (p : string) (T : value) :
  T <> JUndefined ->
  lensPath (split delimiter p) (objectMerge (JObj []) (realiseObject p T))
  = Returned T.
Proof.
  intros HT. rewrite realiseObject_nested by exact HT.
  pose proof (split_nonempty delimiter p) as Hne.
  destruct (split delimiter p) as [|k rest] eqn:E; [congruence|].
  change (nested (k :: rest) T) with (JObj [(k, nested rest T)]).
  rewrite objectMerge_empty_singleton.
  apply (lensPath_nested (k :: rest) T). discriminate.
Qed.

(** ** What a computation leaves alone *)

Section Keeps.
Context {X : Type} (proj : World -> X).

Lemma keeps_ret {A} (a : A) : keeps proj (ret a).
Proof. intros w; reflexivity. Qed.

Lemma keeps_lift {A} (r : result A) : keeps proj (lift r).
Proof. intros w; reflexivity. Qed.

Lemma keeps_bind {A B} (c : M A) (k : A -> M B) :
  keeps proj c -> (forall a, keeps proj (k a)) -> keeps proj (bind c k).
Proof.
  intros Hc Hk w. unfold bind. specialize (Hc w).
  destruct (c w) as [[a|e] w']; simpl in *; [rewrite Hk|]; exact Hc.
Qed.

Lemma keeps_if {A} (b : bool) (c1 c2 : M A) :
  keeps proj c1 -> keeps proj c2 -> keeps proj (if b then c1 else c2).
Proof. destruct b; auto. Qed.

Lemma keeps_forEach {A} (l : list A) (f : A -> M unit) :
  (forall x, keeps proj (f x)) -> keeps proj (forEach l f).
Proof.
  intros Hf. induction l as [|x l IH]; simpl.
  - apply keeps_ret.
  - apply keeps_bind; auto.
Qed.

Lemma keeps_foldM {A B} (f : B -> A -> M B) (l : list A) (b : B) :
  (forall b x, keeps proj (f b x)) -> keeps proj (foldM f b l).
Proof.
  intros Hf. revert b. induction l as [|x l IH]; intros b; simpl.
  - apply keeps_ret.
  - apply keeps_bind; auto.
Qed.
End Keeps.

(** Decompose a computation into its primitive operations. *)
Ltac keeps_steps :=
  repeat first
    [ apply keeps_ret | apply keeps_lift
    | apply keeps_bind; [|intros ?]
    | apply keeps_if
    | apply keeps_forEach; intros ?
    | apply keeps_foldM; intros ? ? ];
  try (intros ?; reflexivity).

Lemma load_state_keeps_storage namespace d loadedState state :
  keeps sessionStorage (load_state namespace d loadedState state).
Proof. unfold load_state. keeps_steps. Qed.

(** ** Properties of load *)

(** C10.  [load] only reads the store: whatever the configuration and the
    store, and whether [load] returns or throws, the store afterwards is
    the store before. *)
Theorem load_never_writes_store (config : LoadConfig) (w : World) :
  sessionStorage (snd (load config w)) = sessionStorage w.
Proof.
  revert w. change (keeps sessionStorage (load config)).
  unfold load. keeps_steps.
Qed.

(** C6.  Per-path load on a key that is not in the store: the step of the
    loop returns the accumulated state as it is and hands the console
    exactly one warning, or nothing at all when [disableWarnings] is
    truthy.  So [load] on one such path returns [preloadedState] with one
    warning, and with [disableWarnings: true] the console receives no
    call. *)
Theorem load_absent_key_warns_once
    (namespace : string) (state disableWarnings loadedState preloadedState : value)
    (w : World) :
  sessionStorage w !! add_string (namespace +:+ "_") state = None ->
  let warning :=
    console_warn MODULE_NAME
      (invalid_load_message (add_string (namespace +:+ "_") state)) in
  load_state namespace disableWarnings loadedState state w =
    (Returned loadedState,
     if truthy disableWarnings then w
     else with_console (console w ++ [warning]) w) /\
  load (mkLoadConfig (JArr [state]) JUndefined (JStr namespace)
                     preloadedState JUndefined) w =
    (Returned (or_default preloadedState (JObj [])),
     with_console (console w ++ [warning]) w) /\
  load (mkLoadConfig (JArr [state]) JUndefined (JStr namespace)
                     preloadedState (JBool true)) w =
    (Returned (or_default preloadedState (JObj [])), w).
Proof.
  intros Habsent warning.
  assert (Hstep : forall d acc,
    load_state namespace d acc state w =
      (Returned acc,
       if truthy d then w else with_console (console w ++ [warning]) w)).
  { intros d acc. unfold load_state, bind, getItem, warn. rewrite Habsent. simpl.
    destruct (truthy d); reflexivity. }
  split; [apply Hstep|]. split.
  - unfold load, bind; simpl. unfold bind. rewrite Hstep. reflexivity.
  - unfold load, bind; simpl. unfold bind. rewrite Hstep. reflexivity.
Qed.


(** ** Properties of clear *)

Lemma slice0_literal_prefix namespace key :
  String.eqb (slice0 (String.length namespace) key) namespace = true <->
  literal_prefix namespace key.
Proof.
  unfold slice0, literal_prefix. rewrite String.eqb_eq.
  revert key. induction namespace as [|c ns IH]; intros key; simpl.
  - split; [intros _; exists key; reflexivity|].
    intros _. destruct key; reflexivity.
  - destruct key as [|c' key']; simpl.
    + split; [discriminate|intros [rest Hrest]; discriminate].
    + split.
      * intros [= -> Hns]. apply IH in Hns as [rest ->]. exists rest; reflexivity.
      * intros [rest [= -> Hrest]]. f_equal. apply IH. exists rest; exact Hrest.
Qed.

(** The loop of [clear] over a list of keys: it returns, and a key is gone
    afterwards exactly when it was visited and passes the test. *)
Lemma clear_loop namespace keys w :
  exists s',
    forEach keys (fun key =>
      if String.eqb (slice0 (String.length namespace) key) namespace
      then removeItem key else ret tt) w
    = (Returned tt, with_storage s' w) /\
    forall k,
      s' !! k =
      if String.eqb (slice0 (String.length namespace) k) namespace
         && bool_decide (k ∈ keys)
      then None else sessionStorage w !! k.
Proof.
  revert w. induction keys as [|x keys IH]; intros w.
  - exists (sessionStorage w). split; [destruct w; reflexivity|].
    intros k. rewrite andb_false_r. reflexivity.
  - simpl. unfold bind.
    destruct (String.eqb (slice0 (String.length namespace) x) namespace) eqn:Hx.
    + unfold removeItem at 1.
      destruct (IH (with_storage (delete x (sessionStorage w)) w)) as (s' & -> & Hs').
      exists s'. split; [reflexivity|]. intros k. rewrite Hs'. simpl.
      destruct (String.eqb (slice0 (String.length namespace) k) namespace) eqn:Hk;
        simpl.
      * destruct (decide (k = x)) as [->|Hne].
        { rewrite lookup_delete_eq.
          rewrite (bool_decide_eq_true_2 (x ∈ x :: keys)) by left.
          destruct (bool_decide (x ∈ keys)); reflexivity. }
        rewrite lookup_delete_ne by congruence.
        destruct (bool_decide_reflect (k ∈ keys)) as [Hin|Hin].
        { rewrite bool_decide_eq_true_2 by (right; exact Hin). reflexivity. }
        rewrite bool_decide_eq_false_2; [reflexivity|].
        intros [?|?]%elem_of_cons; contradiction.
      * destruct (decide (k = x)) as [->|Hne]; [congruence|].
        apply lookup_delete_ne; congruence.
    + unfold ret at 1.
      destruct (IH w) as (s' & -> & Hs').
      exists s'. split; [reflexivity|]. intros k. rewrite Hs'.
      destruct (String.eqb (slice0 (String.length namespace) k) namespace) eqn:Hk;
        simpl; [|reflexivity].
      destruct (bool_decide_reflect (k ∈ keys)) as [Hin|Hin].
      { rewrite bool_decide_eq_true_2 by (right; exact Hin). reflexivity. }
      rewrite bool_decide_eq_false_2; [reflexivity|].
      intros [->|?]%elem_of_cons; [congruence|contradiction].
Qed.

Lemma storage_keys_spec (s : gmap string string) k :
  k ∈ map fst (map_to_list s) <-> is_Some (s !! k).
Proof.
  rewrite list_elem_of_fmap. split.
  - intros [[k' v] [-> Hin]]. apply elem_of_map_to_list in Hin. eauto.
  - intros [v Hv]. exists (k, v). split; [reflexivity|].
    apply elem_of_map_to_list. exact Hv.
Qed.

(** C7.  For every store and every string namespace, [clear] returns and
    removes exactly the keys that have the namespace as a literal prefix:
    such a key is gone afterwards, and every other key keeps its value.
    The match is on characters, so the namespace app also covers the key
    app2_x. *)
Theorem clear_removes_exactly_prefixed (namespace : string) (w : World) :
  fst (clear (JStr namespace) w) = Returned tt /\
  (forall key, literal_prefix namespace key ->
     sessionStorage (snd (clear (JStr namespace) w)) !! key = None) /\
  (forall key, ~ literal_prefix namespace key ->
     sessionStorage (snd (clear (JStr namespace) w)) !! key
     = sessionStorage w !! key) /\
  literal_prefix "app" "app2_x".
Proof.
  unfold clear. simpl. unfold bind, validate_namespace, storage_keys. simpl.
  destruct (clear_loop namespace (map fst (map_to_list (sessionStorage w))) w)
    as (s' & -> & Hs').
  simpl. repeat split.
  - intros key Hp. rewrite Hs'.
    apply slice0_literal_prefix in Hp. rewrite Hp. simpl.
    destruct (bool_decide_reflect
                (key ∈ map fst (map_to_list (sessionStorage w)))) as [Hin|Hin];
      [reflexivity|].
    rewrite storage_keys_spec in Hin.
    destruct (sessionStorage w !! key) eqn:E; [|reflexivity].
    exfalso; apply Hin; eauto.
  - intros key Hp. rewrite Hs'.
    destruct (String.eqb (slice0 (String.length namespace) key) namespace) eqn:E;
      [|reflexivity].
    apply slice0_literal_prefix in E. contradiction.
  - exists "2_x". reflexivity.
Qed.


(** ** Properties of combineLoads *)













(** ** Properties of save *)

(** [save] after its validations: either the timer is replaced, or
    [_save] runs at once. *)
Lemma save_run config next action w :
  let vars := save_variables config in
  let states := array_elements (save_states vars) in
  let namespace := string_of (save_namespace vars) in
  let debounce := integer_of (save_debounce vars) in
  save config next action w =
  (do _ <- (if negb (debounce =? 0)
            then
              do handle <- read_debounceTimeout;
              do _ <- (if truthy_handle handle
                       then clearTimeout (default O handle)
                       else ret tt);
              setTimeout_save states namespace debounce
            else _save states namespace);
   ret (fst (next action (reduxState w))))
    (validated_world config next action w).
Proof.
  unfold save, save_variables, validated_world, save_reports.
  unfold validate_states, validate_namespace, validate_debounce.
  destruct (isArray (or_default (save_states config) STATES_DEFAULT));
    destruct (isString (or_default (save_namespace config) NAMESPACE_DEFAULT));
    destruct (isInteger (or_default (save_debounce config) DEBOUNCE_DEFAULT));
    cbn [negb app]; unfold bind at 1 2 3 4; unfold call_next, console_log, ret;
    cbn [fst snd]; unfold bind at 1 2 3; unfold with_console, with_reduxState;
    cbn [console sessionStorage debounceTimeout timers nextTimerId reduxState];
    rewrite <- ?app_assoc, ?app_nil_r; cbn [app]; reflexivity.
Qed.

Lemma _save_keeps_slot states namespace : keeps slot (_save states namespace).
Proof. unfold _save, save_state. keeps_steps. Qed.


Lemma _save_keeps_console states namespace :
  keeps console (_save states namespace).
Proof. unfold _save, save_state. keeps_steps. Qed.

Lemma isInteger_int z : isInteger (JNum (NInt z)) = true.
Proof. simpl. apply Z.eqb_refl. Qed.

(** One Selector Path in [_save]: the value the lens finds is written when
    it is truthy, and the key is removed otherwise. *)
Lemma save_state_found namespace state v w :
  getStateForSessionStorage state (reduxState w) = Returned v ->
  save_state namespace state w =
  (Returned tt,
   with_storage
     (if truthy v
      then <[add_string (namespace +:+ "_") state := JSON_stringify v]>
             (sessionStorage w)
      else delete (add_string (namespace +:+ "_") state) (sessionStorage w)) w).
Proof.
  intros Hv. unfold save_state, bind, getState, lift. rewrite Hv.
  destruct (truthy v); reflexivity.
Qed.

(** C2 (the code at the failing inputs).  [_save] tests the value the lens
    found for truthiness, so a value that exists at the path but is falsy
    (0, false, the empty string, null) is not written: its key is
    removed, as for a path that is not found.  A truthy value is
    written. *)
Theorem save_removes_key_of_falsy_value :
  saved_count (JNum (NInt 0)) = None /\
  saved_count (JBool false) = None /\
  saved_count (JStr "") = None /\
  saved_count JNull = None /\
  saved_count (JNum (NInt 7)) = Some (JSON_stringify (JNum (NInt 7))).
Proof.
  unfold saved_count. rewrite !save_run.
  cbn -[lookup insert delete singletonM]. unfold bind.
  cbn -[lookup insert delete singletonM].
  rewrite !lookup_delete_eq, lookup_insert_eq. repeat split.
Qed.

(** C3 (amended).  The validation of [debounce] is the integer test.  A
    value that fails it (a non-number, NaN, an infinity, a non-integral
    number) is reported, the variable becomes the default 0, and [_save]
    runs at once on the validated [states] and [namespace]: the outcome of
    [save] is the outcome of that [_save], the timer slot is untouched,
    and in whole-tree mode the middleware returns the value of [next].  A
    non-zero integer, negative or not, passes the test: nothing is
    reported for it, nothing is saved at once, and a timer is
    scheduled with it. *)
Theorem save_debounce_validation
    (config : SaveConfig) (next : value -> value -> value * value)
    (action : value) (w : World) :
  let debounce := or_default (save_debounce config) DEBOUNCE_DEFAULT in
  let vars := save_variables config in
  let states := array_elements (save_states vars) in
  let namespace := string_of (save_namespace vars) in
  let w1 := validated_world config next action w in
  (isInteger debounce = false ->
     last (console (snd (save config next action w))) = Some debounce_error /\
     save_debounce vars = DEBOUNCE_DEFAULT /\
     save config next action w =
       (match fst (_save states namespace w1) with
        | Returned _ => Returned (fst (next action (reduxState w)))
        | Threw e => Threw e
        end, snd (_save states namespace w1)) /\
     slot (snd (save config next action w)) = slot w /\
     (states = [] ->
      fst (save config next action w)
      = Returned (fst (next action (reduxState w))))) /\
  (forall z, debounce = JNum (NInt z) -> z <> 0 ->
     (debounce_error ∉ save_reports config) /\
     console (snd (save config next action w))
     = console w ++ save_reports config /\
     sessionStorage (snd (save config next action w)) = sessionStorage w /\
     mkTimer (nextTimerId w) z states namespace
       ∈ timers (snd (save config next action w))).
Proof.
  intros debounce vars states namespace w1. split.
  - intros Hbad.
    assert (Hz : integer_of (save_debounce vars) = 0).
    { unfold vars, save_variables. cbn [save_debounce]. fold debounce.
      rewrite Hbad. reflexivity. }
    assert (Hrun : save config next action w =
       (match fst (_save states namespace w1) with
        | Returned _ => Returned (fst (next action (reduxState w)))
        | Threw e => Threw e
        end, snd (_save states namespace w1))).
    { rewrite save_run. fold vars states namespace w1. rewrite Hz.
      cbn [Z.eqb negb]. unfold bind.
      destruct (_save states namespace w1) as [[[]|e] w2]; reflexivity. }
    repeat split.
    + rewrite Hrun. cbn [snd]. rewrite _save_keeps_console.
      unfold w1, validated_world, save_reports. cbn [console with_console].
      fold debounce. rewrite Hbad, !app_assoc. apply last_snoc.
    + unfold vars, save_variables. cbn [save_debounce]. fold debounce.
      rewrite Hbad. reflexivity.
    + exact Hrun.
    + rewrite Hrun. cbn [snd]. rewrite _save_keeps_slot. reflexivity.
    + intros Hnil. rewrite Hrun, Hnil. reflexivity.
  - intros z Hz Hnz.
    assert (Hint : integer_of (save_debounce vars) = z).
    { unfold vars, save_variables. cbn [save_debounce]. fold debounce.
      rewrite Hz, isInteger_int. reflexivity. }
    assert (Hreports : save_reports config =
      (if isArray (or_default (save_states config) STATES_DEFAULT)
       then [] else [states_error "save"]) ++
      (if isString (or_default (save_namespace config) NAMESPACE_DEFAULT)
       then [] else [namespace_error "save"])).
    { unfold save_reports. fold debounce.
      rewrite Hz, isInteger_int, app_nil_r. reflexivity. }
    rewrite save_run. fold vars states namespace w1. rewrite Hint.
    destruct (Z.eqb_spec z 0) as [|_]; [contradiction|]. cbn [negb].
    unfold bind, read_debounceTimeout, setTimeout_save, ret.
    split.
    { rewrite Hreports.
      destruct (isArray _), (isString _); cbn [app];
        rewrite ?list_elem_of_In; cbn [In];
        unfold debounce_error, states_error, namespace_error;
        intros H; repeat destruct H as [H|H]; try discriminate H; exact H. }
    destruct (truthy_handle (debounceTimeout w1)); cbn;
      (split; [reflexivity|]); (split; [reflexivity|]);
      apply list_elem_of_In, in_or_app; right; left; reflexivity.
Qed.


(** ** The debounce slot *)

Lemma load_keeps_slot config : keeps slot (load config).
Proof. unfold load. keeps_steps. Qed.

Lemma clear_keeps_slot namespace : keeps slot (clear namespace).
Proof. unfold clear. keeps_steps. Qed.

Lemma combineLoads_keeps_slot loads : keeps slot (combineLoads loads).
Proof. unfold combineLoads. keeps_steps. Qed.

Lemma validated_world_slot config next action w :
  slot (validated_world config next action w) = slot w.
Proof. reflexivity. Qed.

(** A debounced request in a world that satisfies the invariant: the
    pending timer, if any, is cancelled and the new one is alone. *)
Lemma schedule_replaces states namespace z w :
  single_slot w ->
  (do handle <- read_debounceTimeout;
   do _ <- (if truthy_handle handle
            then clearTimeout (default O handle)
            else ret tt);
   setTimeout_save states namespace z) w
  = (Returned tt,
     mkWorld (sessionStorage w) (console w) (Some (nextTimerId w))
             [mkTimer (nextTimerId w) z states namespace]
             (S (nextTimerId w)) (reduxState w)).
Proof.
  unfold single_slot, slot, slot_ok. intros [_ [Hnil|(t & Ht & Hh & Hid)]].
  - unfold bind, read_debounceTimeout, clearTimeout, setTimeout_save, ret.
    destruct (truthy_handle (debounceTimeout w)); cbn; rewrite Hnil; reflexivity.
  - unfold bind, read_debounceTimeout, clearTimeout, setTimeout_save, ret.
    rewrite Hh. cbn.
    destruct (Nat.eqb_spec (timer_id t) 0) as [|_]; [contradiction|]. cbn.
    rewrite Ht. cbn. rewrite Nat.eqb_refl. reflexivity.
Qed.

(** A pending timer fires in a world that satisfies the invariant: it was
    the only one, and its callback runs with no timer pending. *)
Lemma fire_run t w :
  single_slot w -> t ∈ timers w ->
  timers w = [t] /\
  fire t w =
  _save (timer_states t) (timer_namespace t)
        (mkWorld (sessionStorage w) (console w) (debounceTimeout w) []
                 (nextTimerId w) (reduxState w)).
Proof.
  unfold single_slot, slot, slot_ok. intros [_ [Hnil|(t' & Ht & _ & _)]] Hin.
  - rewrite Hnil in Hin. inversion Hin.
  - rewrite Ht in Hin. apply list_elem_of_singleton in Hin as ->.
    split; [exact Ht|].
    unfold fire, bind, clearTimeout. rewrite Ht. cbn.
    rewrite Nat.eqb_refl. reflexivity.
Qed.

(** [save] with a non-zero integer [debounce], in such a world. *)
Lemma save_debounced config next action w z :
  single_slot w ->
  or_default (save_debounce config) DEBOUNCE_DEFAULT = JNum (NInt z) ->
  z <> 0 ->
  save config next action w =
  (Returned (fst (next action (reduxState w))),
   mkWorld (sessionStorage w) (console w ++ save_reports config)
           (Some (nextTimerId w))
           [mkTimer (nextTimerId w) z
                    (array_elements (save_states (save_variables config)))
                    (string_of (save_namespace (save_variables config)))]
           (S (nextTimerId w)) (snd (next action (reduxState w)))).
Proof.
  intros Hw Hz Hnz. rewrite save_run. cbv zeta.
  assert (Hint : integer_of (save_debounce (save_variables config)) = z).
  { unfold save_variables. cbn [save_debounce].
    rewrite Hz, isInteger_int. reflexivity. }
  rewrite Hint. destruct (Z.eqb_spec z 0) as [|_]; [contradiction|].
  cbn [negb]. unfold bind at 1.
  rewrite schedule_replaces by exact Hw. reflexivity.
Qed.

Lemma single_slot_initial w : initial w -> single_slot w.
Proof.
  intros (Hh & Ht & Hn). unfold single_slot, slot, slot_ok.
  split; [exact Hn|left; exact Ht].
Qed.

Lemma single_slot_step w w' : single_slot w -> step w w' -> single_slot w'.
Proof.
  intros Hinv Hstep. destruct Hstep as [config next action w|t w Hin|config w|ns w|loads w].
  - rewrite save_run. cbv zeta.
    destruct (negb (integer_of (save_debounce (save_variables config)) =? 0)).
    + unfold bind at 1.
      rewrite schedule_replaces by exact Hinv.
      unfold single_slot, slot, slot_ok in *. cbn.
      destruct Hinv as [Hpos _]. split; [lia|].
      right. eexists. split; [reflexivity|]. cbn. split; [reflexivity|lia].
    + unfold single_slot.
      rewrite (keeps_bind slot _ _ (_save_keeps_slot _ _)
                          (fun _ => keeps_ret slot _)).
      exact Hinv.
  - destruct (fire_run t w Hinv Hin) as [_ ->].
    unfold single_slot. rewrite _save_keeps_slot.
    unfold single_slot, slot, slot_ok in *. cbn.
    destruct Hinv as [Hpos _]. split; [exact Hpos|left; reflexivity].
  - unfold single_slot. rewrite load_keeps_slot. exact Hinv.
  - unfold single_slot. rewrite clear_keeps_slot. exact Hinv.
  - unfold single_slot. rewrite combineLoads_keeps_slot. exact Hinv.
Qed.

(** The invariant holds in every reachable world. *)
Lemma single_slot_reachable w : reachable w -> single_slot w.
Proof.
  intros (w0 & Hinit & Hsteps).
  apply single_slot_initial in Hinit.
  induction Hsteps as [|x y z Hxy _ IH]; [exact Hinit|].
  apply IH. eapply single_slot_step; eassumption.
Qed.

(** C9.  The debounce slot in every reachable world: (1) at most one save
    timer is pending; (2) a debounced save request writes nothing and
    leaves its own timer as the only pending one, whatever was pending
    before; (3) a timer that fires was the only pending one, so it is the
    one of the most recent request, and its callback is [_save] on the
    world of that moment, with no timer pending afterwards; (4) in
    whole-tree mode that is exactly one write, of the state read when the
    timer fires. *)
Theorem debounce_single_slot :
  (forall w, reachable w -> (length (timers w) <= 1)%nat) /\
  (forall w config next action z,
     reachable w ->
     or_default (save_debounce config) DEBOUNCE_DEFAULT = JNum (NInt z) ->
     z <> 0 ->
     timers (snd (save config next action w))
     = [mkTimer (nextTimerId w) z
                (array_elements (save_states (save_variables config)))
                (string_of (save_namespace (save_variables config)))] /\
     debounceTimeout (snd (save config next action w)) = Some (nextTimerId w) /\
     sessionStorage (snd (save config next action w)) = sessionStorage w) /\
  (forall w t,
     reachable w -> t ∈ timers w ->
     timers w = [t] /\
     fire t w =
       _save (timer_states t) (timer_namespace t)
             (mkWorld (sessionStorage w) (console w) (debounceTimeout w) []
                      (nextTimerId w) (reduxState w)) /\
     timers (snd (fire t w)) = []) /\
  (forall w t,
     reachable w -> t ∈ timers w -> timer_states t = [] ->
     sessionStorage (snd (fire t w))
     = <[timer_namespace t := JSON_stringify (reduxState w)]> (sessionStorage w)).
Proof.
  repeat apply conj.
  - intros w Hw. apply single_slot_reachable in Hw.
    unfold single_slot, slot, slot_ok in Hw.
    destruct Hw as [_ [->|(t & -> & _)]]; simpl; lia.
  - intros w config next action z Hw Hz Hnz.
    apply single_slot_reachable in Hw.
    rewrite (save_debounced config next action w z Hw Hz Hnz). cbn. auto.
  - intros w t Hw Hin. apply single_slot_reachable in Hw.
    destruct (fire_run t w Hw Hin) as [Ht Hfire].
    split; [exact Ht|]. split; [exact Hfire|].
    rewrite Hfire.
    pose proof (_save_keeps_slot (timer_states t) (timer_namespace t)
      (mkWorld (sessionStorage w) (console w) (debounceTimeout w) []
               (nextTimerId w) (reduxState w))) as Hk.
    unfold slot in Hk. cbn in Hk. congruence.
  - intros w t Hw Hin Hall. apply single_slot_reachable in Hw.
    destruct (fire_run t w Hw Hin) as [_ ->].
    unfold _save. rewrite Hall. reflexivity.
Qed.

(** ** Further properties of the path lens and the realizer *)

(** X3.  The lens composes along a path: when the first part of a path
    finds a value that is neither [undefined] nor [null], the whole path
    finds what the second part finds from that value. *)
Theorem lensPath_app (p q : list string) (obj v : value) :
  p <> [] -> q <> [] ->
  lensPath p obj = Returned v -> v <> JUndefined -> v <> JNull ->
  lensPath (p ++ q) obj = lensPath q v.
Proof.
  intros Hp Hq. revert obj. induction p as [|k p IH]; [congruence|].
  intros obj Hfound Hu Hn.
  assert (Hobj : obj <> JUndefined).
  { intros ->. destruct p; simpl in Hfound; congruence. }
  destruct q as [|k' q]; [congruence|].
  destruct p as [|k1 p].
  - rewrite lensPath_single in Hfound by exact Hobj.
    simpl app. rewrite lensPath_step by exact Hobj. rewrite Hfound. reflexivity.
  - rewrite lensPath_step in Hfound by exact Hobj.
    change ((k :: k1 :: p) ++ k' :: q) with (k :: k1 :: (p ++ k' :: q)).
    rewrite lensPath_step by exact Hobj.
    destruct (get obj k) as [inner|e]; [|discriminate].
    apply (IH ltac:(discriminate) inner Hfound Hu Hn).
Qed.

Lemma split_single d s :
  (length (split d s) <= 1)%nat -> split d s = [s].
Proof.
  induction s as [|c s IH]; simpl; [reflexivity|].
  destruct (Ascii.eqb c d).
  - pose proof (split_nonempty d s). destruct (split d s); simpl; [congruence|lia].
  - pose proof (split_nonempty d s) as Hne.
    destruct (split d s) as [|seg segs] eqn:E; [congruence|].
    simpl. intros Hlen. simpl in IH. specialize (IH Hlen).
    injection IH as -> ->. reflexivity.
Qed.

Lemma getStateForSessionStorage_string s rootState :
  getStateForSessionStorage (JStr s) rootState
  = lensPath (split delimiter s) rootState.
Proof.
  unfold getStateForSessionStorage.
  destruct (Nat.ltb_spec 1 (length (split delimiter s))) as [_|Hle];
    [reflexivity|].
  rewrite (split_single _ _ Hle). reflexivity.
Qed.

(** X4.  The two branches of [getStateForSessionStorage] agree: for a
    string path the data is always what the lens finds along the split
    path, and a path that is not a string raises a TypeError. *)
Theorem getStateForSessionStorage_is_lens (state rootState : value) :
  getStateForSessionStorage state rootState =
  match state with
  | JStr s => lensPath (split delimiter s) rootState
  | _ => Threw TypeError
  end.
Proof.
  destruct state as [| |b|n|s|l|props]; try reflexivity.
  apply getStateForSessionStorage_string.
Qed.

(** X5.  [realiseObject] without an initial value, or with [undefined],
    puts the empty object at the innermost segment; and whatever the
    initial value, the result is an object with one property, named by
    the first segment of the path. *)
Theorem realiseObject_default_and_shape (p : string) :
  realiseObject p JUndefined = nested (split delimiter p) (JObj []) /\
  realiseObject p JUndefined = realiseObject p (JObj []) /\
  forall v, exists k inner,
    head (split delimiter p) = Some k /\
    realiseObject p v = JObj [(k, inner)].
Proof.
  assert (Hgen : forall v,
    realiseObject p v =
    nested (split delimiter p)
           (match v with JUndefined => JObj [] | _ => v end)).
  { intros v. unfold realiseObject.
    rewrite <- (app_nil_r (rev (split delimiter p))).
    rewrite realiseObject__nested. reflexivity. }
  split; [apply Hgen|]. split; [rewrite !Hgen; reflexivity|].
  intros v. rewrite Hgen.
  pose proof (split_nonempty delimiter p) as Hne.
  destruct (split delimiter p) as [|k rest]; [congruence|].
  exists k. eexists. split; reflexivity.
Qed.

(** ** Further properties of save *)

(** One Selector Path in [_save], in full: a TypeError of the lens or of
    [split] leaves the world as it is. *)
Lemma save_state_run namespace state w :
  save_state namespace state w =
  match getStateForSessionStorage state (reduxState w) with
  | Returned v =>
      (Returned tt,
       with_storage
         (if truthy v
          then <[add_string (namespace +:+ "_") state := JSON_stringify v]>
                 (sessionStorage w)
          else delete (add_string (namespace +:+ "_") state) (sessionStorage w))
         w)
  | Threw e => (Threw e, w)
  end.
Proof.
  destruct (getStateForSessionStorage state (reduxState w)) as [v|e] eqn:E.
  - apply save_state_found, E.
  - unfold save_state, bind, getState, lift. rewrite E. reflexivity.
Qed.

Lemma save_state_other_key namespace state key w :
  add_string (namespace +:+ "_") state <> key ->
  sessionStorage (snd (save_state namespace state w)) !! key
  = sessionStorage w !! key.
Proof.
  intros Hne. rewrite save_state_run.
  destruct (getStateForSessionStorage state (reduxState w)) as [v|e];
    [|reflexivity].
  destruct (truthy v); cbn [snd with_storage sessionStorage].
  - apply lookup_insert_ne, Hne.
  - apply lookup_delete_ne, Hne.
Qed.

Lemma forEach_save_state_other_key namespace states key w :
  (forall state, state ∈ states -> add_string (namespace +:+ "_") state <> key) ->
  sessionStorage (snd (forEach states (save_state namespace) w)) !! key
  = sessionStorage w !! key.
Proof.
  revert w. induction states as [|s states IH]; intros w Hpaths; [reflexivity|].
  cbn [forEach]. unfold bind.
  pose proof (save_state_other_key namespace s key w
                (Hpaths s ltac:(left))) as Hhead.
  destruct (save_state namespace s w) as [[[]|e] w1]; cbn [snd] in *.
  - rewrite IH; [exact Hhead|]. intros st Hin. apply Hpaths. right. exact Hin.
  - exact Hhead.
Qed.

Lemma _save_other_key states namespace key w :
  (states = [] -> namespace <> key) ->
  (forall state, state ∈ states -> add_string (namespace +:+ "_") state <> key) ->
  sessionStorage (snd (_save states namespace w)) !! key
  = sessionStorage w !! key.
Proof.
  intros Hwhole Hpaths. unfold _save.
  destruct states as [|s0 states0].
  - cbn. apply lookup_insert_ne. auto.
  - cbn [length Nat.eqb].
    apply forEach_save_state_other_key, Hpaths.
Qed.

(** X6.  [_save] touches the keys of its own paths only: in whole-tree
    mode every key other than the bare namespace keeps its value, and in
    per-path mode so does every key that is not namespace_path for one of
    the paths; this holds also when [_save] throws on the way. *)
Theorem save_touches_only_its_keys
    (states : list value) (namespace key : string) (w : World) :
  (states = [] -> namespace <> key) ->
  (forall state, state ∈ states -> add_string (namespace +:+ "_") state <> key) ->
  sessionStorage (snd (_save states namespace w)) !! key
  = sessionStorage w !! key.
Proof. apply _save_other_key. Qed.

Lemma _save_keeps_reduxState states namespace :
  keeps reduxState (_save states namespace).
Proof. unfold _save, save_state. keeps_steps. Qed.

(** X7.  The middleware is transparent: whatever the configuration, the
    state after it is the state [next] left, and when it returns it
    returns the value [next] returned. *)
Theorem save_is_transparent
    (config : SaveConfig) (next : value -> value -> value * value)
    (action : value) (w : World) :
  reduxState (snd (save config next action w)) = snd (next action (reduxState w)) /\
  forall r, fst (save config next action w) = Returned r ->
            r = fst (next action (reduxState w)).
Proof.
  rewrite save_run. cbv zeta.
  set (body := if negb (integer_of (save_debounce (save_variables config)) =? 0)
               then _ else _).
  assert (Hbody : keeps reduxState body).
  { unfold body. destruct (negb _).
    - keeps_steps.
    - apply _save_keeps_reduxState. }
  specialize (Hbody (validated_world config next action w)).
  unfold bind. destruct (body (validated_world config next action w))
    as [[[]|e] w1]; cbn [fst snd] in *.
  - split; [exact Hbody|]. intros r [= <-]. reflexivity.
  - split; [exact Hbody|]. intros r H. discriminate H.
Qed.

Lemma validated_option (test : value -> bool) (v d : value) :
  test JUndefined = false -> test d = true ->
  let v' := if test (or_default v d) then or_default v d else d in
  test (or_default v' d) = true /\ or_default v' d = v'.
Proof.
  intros Hu Hd v'.
  assert (Hv' : test v' = true).
  { unfold v'. destruct (test (or_default v d)) eqn:E; assumption. }
  assert (Hdef : or_default v' d = v').
  { destruct v'; try reflexivity. congruence. }
  rewrite Hdef. split; [exact Hv'|reflexivity].
Qed.

(** X8.  Each validation assigns the variable it tests, so after one call
    the variables of the middleware are valid: validating them again
    changes nothing, and a later call of the middleware tells the console
    nothing. *)
Theorem save_variables_are_valid (config : SaveConfig) :
  save_variables (save_variables config) = save_variables config /\
  save_reports (save_variables config) = [] /\
  forall next action w,
    console (snd (save (save_variables config) next action w)) = console w.
Proof.
  assert (Hgoal :
    save_variables (save_variables config) = save_variables config /\
    save_reports (save_variables config) = []);
    [|destruct Hgoal as [Hidem Hquiet]; split; [exact Hidem|];
      split; [exact Hquiet|];
      intros next action w; rewrite save_run; cbv zeta;
      match goal with
      | |- console (snd (bind ?body ?k ?w1)) = _ =>
          assert (Hbody : keeps console body)
            by (destruct (negb _); [keeps_steps|apply _save_keeps_console]);
          rewrite (keeps_bind console body k Hbody (fun _ => keeps_ret console _))
      end;
      unfold validated_world; cbn [console with_console];
      rewrite Hquiet; apply app_nil_r].
  destruct (validated_option isArray (save_states config) STATES_DEFAULT
              eq_refl eq_refl) as [Hs1 Hs2].
  destruct (validated_option isString (save_namespace config) NAMESPACE_DEFAULT
              eq_refl eq_refl) as [Hn1 Hn2].
  destruct (validated_option isInteger (save_debounce config) DEBOUNCE_DEFAULT
              eq_refl eq_refl) as [Hd1 Hd2].
  cbv zeta in *. split.
  - unfold save_variables at 1. cbn [save_variables save_states save_namespace
      save_debounce]. rewrite Hs1, Hn1, Hd1, Hs2, Hn2, Hd2. reflexivity.
  - unfold save_reports. cbn [save_variables save_states save_namespace
      save_debounce]. rewrite Hs1, Hn1, Hd1. reflexivity.
Qed.

(** X9.  Whole-tree save without debounce, which is also what an invalid
    [states] or [debounce] falls back to: the middleware returns the value
    of [next], the one key it writes is the namespace, holding the JSON
    text of the state [next] left, and the console receives the reports
    of the validations only. *)
Theorem save_whole_tree
    (config : SaveConfig) (next : value -> value -> value * value)
    (action : value) (w : World) :
  array_elements (save_states (save_variables config)) = [] ->
  integer_of (save_debounce (save_variables config)) = 0 ->
  save config next action w =
  (Returned (fst (next action (reduxState w))),
   mkWorld (<[string_of (save_namespace (save_variables config))
              := JSON_stringify (snd (next action (reduxState w)))]>
              (sessionStorage w))
           (console w ++ save_reports config)
           (debounceTimeout w) (timers w) (nextTimerId w)
           (snd (next action (reduxState w)))).
Proof.
  intros Hstates Hdebounce. rewrite save_run. cbv zeta.
  rewrite Hstates, Hdebounce. reflexivity.
Qed.

(** ** Save and load together *)

(** A present, non-empty item is truthy. *)
Lemma truthy_item_text text : text <> "" -> truthy_item (Some text) = true.
Proof.
  intros Hne. simpl. destruct (String.eqb_spec text ""); [contradiction|reflexivity].
Qed.

(** The property read of a key that names no member of the Storage
    object: the stored text, if any. *)
Lemma readProperty_item key w :
  key <> "length" -> storage_member key = false ->
  readProperty key w =
  (Returned (match sessionStorage w !! key with
             | Some text => ReadText text
             | None => ReadMissing
             end), w).
Proof.
  intros Hlen Hmember. unfold readProperty. rewrite Hmember.
  destruct (String.eqb_spec key "length"); [contradiction|reflexivity].
Qed.

(** Whole-tree [load] under a namespace that names no member of the
    Storage object. *)
Lemma load_whole_tree_run namespace preloadedState disableWarnings w :
  namespace <> "length" -> storage_member namespace = false ->
  load (mkLoadConfig JUndefined JUndefined (JStr namespace)
                     preloadedState disableWarnings) w
  = match sessionStorage w !! namespace with
    | Some text =>
        if String.eqb text ""
        then (Returned (or_default preloadedState (JObj [])), w)
        else (JSON_parse text, w)
    | None => (Returned (or_default preloadedState (JObj [])), w)
    end.
Proof.
  intros Hlen Hmember.
  unfold load, validate_states, validate_namespace, bind, lift, ret.
  cbn -[lookup readProperty]. unfold bind, ret. cbn -[lookup readProperty].
  rewrite (readProperty_item _ _ Hlen Hmember).
  destruct (sessionStorage w !! namespace) as [text|]; [|reflexivity].
  cbn [truthy_read parse_read]. destruct (String.eqb text ""); reflexivity.
Qed.


(** X12.  Per-path round trip.  Suppose the lens finds a truthy value at a
    path, the key namespace_path names no member of the Storage object,
    and the host's JSON functions round-trip on the value, with a text
    that is not empty.  Then a save of that path without debounce followed
    by a load of the same path and namespace, with no [preloadedState],
    returns without a warning a state in which the lens finds that value
    at the path.  (The merge is into the empty object only.) *)
Theorem save_then_load_path
    (namespace p : string) (next : value -> value -> value * value)
    (action v : value) (w : World) :
  lensPath (split delimiter p) (snd (next action (reduxState w))) = Returned v ->
  truthy v = true ->
  (namespace +:+ "_") +:+ p <> "length" ->
  storage_member ((namespace +:+ "_") +:+ p) = false ->
  JSON_parse (JSON_stringify v) = Returned v ->
  JSON_stringify v <> "" ->
  let w1 := snd (save (mkSaveConfig (JArr [JStr p]) (JStr namespace) JUndefined)
                      next action w) in
  let loaded := load (mkLoadConfig (JArr [JStr p]) JUndefined (JStr namespace)
                                   JUndefined JUndefined) w1 in
  fst loaded = Returned (nested (split delimiter p) v) /\
  lensPath (split delimiter p) (nested (split delimiter p) v) = Returned v /\
  console (snd loaded) = console w.
Proof.
  intros Hlens Htruthy Hlen Hmember Hround Htext w1 loaded.
  assert (Hv : v <> JUndefined) by (intros ->; discriminate Htruthy).
  assert (Hw1 : w1 =
    with_storage (<[(namespace +:+ "_") +:+ p := JSON_stringify v]>
                    (sessionStorage w))
                 (with_console (console w ++ [])
                    (with_reduxState (snd (next action (reduxState w))) w))).
  { unfold w1. rewrite save_run. cbv zeta.
    cbn [save_variables save_states save_namespace save_debounce or_default
         isArray isString isInteger STATES_DEFAULT NAMESPACE_DEFAULT
         DEBOUNCE_DEFAULT array_elements string_of integer_of isFinite
         Math_floor number_eq andb Z.eqb negb].
    unfold bind at 1. unfold _save. cbn [length Nat.eqb forEach].
    unfold bind at 1. rewrite save_state_run.
    rewrite getStateForSessionStorage_string.
    unfold validated_world at 1. cbn [reduxState with_console with_reduxState].
    rewrite Hlens, Htruthy. reflexivity. }
  assert (Hloaded : loaded =
    (Returned (nested (split delimiter p) v), w1)).
  { unfold loaded. rewrite Hw1.
    unfold load, validate_states, validate_namespace, load_state, getItem,
      bind, lift, ret.
    cbn -[lookup insert truthy_item realiseObject objectMerge split nested
          String.append readProperty].
    unfold bind, ret.
    cbn -[lookup insert truthy_item realiseObject objectMerge split nested
          String.append readProperty].
    rewrite lookup_insert_eq, (truthy_item_text _ Htext).
    rewrite (readProperty_item _ _ Hlen Hmember).
    cbn [sessionStorage with_storage]. rewrite lookup_insert_eq.
    cbn [parse_read]. rewrite Hround.
    rewrite realiseObject_nested by exact Hv.
    pose proof (split_nonempty delimiter p) as Hne.
    destruct (split delimiter p) as [|k rest]; [congruence|].
    reflexivity. }
  rewrite Hloaded. cbn [fst snd]. split; [reflexivity|]. split.
  - apply lensPath_nested, split_nonempty.
  - rewrite Hw1. cbn. apply app_nil_r.
Qed.

(** What [_save] does to the store depends on the store and on the state
    only. *)
Lemma _save_determined states namespace w w' :
  sessionStorage w = sessionStorage w' -> reduxState w = reduxState w' ->
  fst (_save states namespace w) = fst (_save states namespace w') /\
  sessionStorage (snd (_save states namespace w))
  = sessionStorage (snd (_save states namespace w')).
Proof.
  unfold _save. destruct (length states =? 0)%nat.
  - intros Hs Hr. cbn. rewrite Hs, Hr. split; reflexivity.
  - revert w w'. induction states as [|s states IH]; intros w w' Hs Hr.
    + split; [reflexivity|exact Hs].
    + cbn [forEach]. unfold bind. rewrite !save_state_run, <- Hr.
      destruct (getStateForSessionStorage s (reduxState w)) as [v|e].
      * apply IH; cbn; [rewrite Hs; reflexivity|exact Hr].
      * split; [reflexivity|exact Hs].
Qed.

(** X13.  Debounce only delays: when the timer of a debounced request
    fires before anything else happens, the store ends up as after the
    same request without debounce. *)
Theorem debounced_save_fires_like_synchronous
    (config : SaveConfig) (next : value -> value -> value * value)
    (action : value) (w : World) (z : Z) :
  single_slot w ->
  or_default (save_debounce config) DEBOUNCE_DEFAULT = JNum (NInt z) ->
  z <> 0 ->
  let t := mkTimer (nextTimerId w) z
             (array_elements (save_states (save_variables config)))
             (string_of (save_namespace (save_variables config))) in
  timers (snd (save config next action w)) = [t] /\
  sessionStorage (snd (fire t (snd (save config next action w))))
  = sessionStorage
      (snd (save (mkSaveConfig (save_states config) (save_namespace config)
                               (JNum (NInt 0)))
                 next action w)).
Proof.
  intros Hw Hz Hnz t.
  rewrite (save_debounced config next action w z Hw Hz Hnz).
  cbn [snd timers]. split; [reflexivity|].
  unfold fire, bind at 1, clearTimeout.
  cbn [timers timer_id List.filter sessionStorage console debounceTimeout
       nextTimerId reduxState]. rewrite Nat.eqb_refl. cbn [negb].
  rewrite (save_run (mkSaveConfig (save_states config) (save_namespace config)
                                  (JNum (NInt 0)))).
  cbv zeta.
  cbn [save_variables save_states save_namespace save_debounce or_default
       isInteger DEBOUNCE_DEFAULT integer_of isFinite Math_floor number_eq
       andb Z.eqb negb].
  unfold bind at 1. unfold t. cbn [timer_states timer_namespace].
  set (states := array_elements (save_states (save_variables config))).
  set (namespace := string_of (save_namespace (save_variables config))).
  change (array_elements
            (if isArray (or_default (save_states config) STATES_DEFAULT)
             then or_default (save_states config) STATES_DEFAULT
             else STATES_DEFAULT)) with states.
  change (string_of
            (if isString (or_default (save_namespace config) NAMESPACE_DEFAULT)
             then or_default (save_namespace config) NAMESPACE_DEFAULT
             else NAMESPACE_DEFAULT)) with namespace.
  set (w_sync := validated_world _ next action w).
  set (w_fire := mkWorld _ _ _ _ _ _).
  destruct (_save_determined states namespace w_fire w_sync eq_refl eq_refl)
    as [_ Hstore].
  rewrite Hstore.
  destruct (_save states namespace w_sync) as [[[]|e] w2]; reflexivity.
Qed.

(** ** Further properties of clear *)

(** What [clear] leaves at a key, for any namespace option. *)
Lemma clear_lookup namespace w key :
  sessionStorage (snd (clear namespace w)) !! key =
  if String.eqb (slice0 (String.length (clear_namespace namespace)) key)
                (clear_namespace namespace)
  then None else sessionStorage w !! key.
Proof.
  unfold clear, clear_namespace, validate_namespace.
  set (ns := or_default namespace NAMESPACE_DEFAULT).
  assert (Hloop : forall (n : string) (w0 : World),
    sessionStorage
      (snd ((do keys <- storage_keys;
              forEach keys (fun key =>
                if String.eqb (slice0 (String.length n) key) n
                then removeItem key else ret tt)) w0)) !! key
    = if String.eqb (slice0 (String.length n) key) n
      then None else sessionStorage w0 !! key).
  { intros n w0. unfold bind, storage_keys.
    destruct (clear_loop n (map fst (map_to_list (sessionStorage w0))) w0)
      as (s' & -> & Hs').
    cbn [snd with_storage sessionStorage]. rewrite Hs'.
    destruct (String.eqb (slice0 (String.length n) key) n); [|reflexivity].
    cbn [andb].
    destruct (bool_decide_reflect
                (key ∈ map fst (map_to_list (sessionStorage w0)))) as [Hin|Hin];
      [reflexivity|].
    rewrite storage_keys_spec in Hin.
    destruct (sessionStorage w0 !! key) eqn:E; [|reflexivity].
    exfalso; apply Hin; eauto. }
  destruct (isString ns); cbn [negb].
  - unfold bind at 1, ret at 1. apply Hloop.
  - unfold bind at 1 2, console_log, ret at 1. rewrite Hloop. reflexivity.
Qed.

(** X14.  [clear] with the empty namespace empties the store: the empty
    string is a prefix of every key. *)
Theorem clear_empty_namespace_empties_store (w : World) :
  sessionStorage (snd (clear (JStr "") w)) = ∅.
Proof.
  apply map_eq. intros key. rewrite clear_lookup, lookup_empty.
  change (clear_namespace (JStr "")) with "".
  assert (Hprefix : literal_prefix "" key) by (exists key; reflexivity).
  apply slice0_literal_prefix in Hprefix. rewrite Hprefix. reflexivity.
Qed.

(** X15.  [clear] is idempotent on the store, for every value of the
    namespace option, valid or not. *)
Theorem clear_is_idempotent (namespace : value) (w : World) :
  sessionStorage (snd (clear namespace (snd (clear namespace w))))
  = sessionStorage (snd (clear namespace w)).
Proof.
  apply map_eq. intros key. rewrite !clear_lookup.
  destruct (String.eqb _ _); reflexivity.
Qed.

Lemma append_assoc (a b c : string) : (a +:+ b) +:+ c = a +:+ (b +:+ c).
Proof.
  induction a as [|x a IH]; [reflexivity|].
  change (String x ((a +:+ b) +:+ c) = String x (a +:+ (b +:+ c))).
  f_equal. exact IH.
Qed.

Lemma save_key_has_prefix namespace state :
  literal_prefix namespace (add_string (namespace +:+ "_") state).
Proof.
  destruct state; simpl; rewrite append_assoc; eexists; reflexivity.
Qed.

Lemma literal_prefix_refl namespace : literal_prefix namespace namespace.
Proof.
  exists "". induction namespace as [|c n IH]; [reflexivity|].
  change (String c n = String c (n +:+ "")). f_equal. exact IH.
Qed.

(** X16.  [clear] undoes [save]: when no key of the store carries the
    namespace as a prefix, a save without debounce under that namespace
    followed by [clear] of the namespace gives the store back as it was,
    whatever [states] is and whether the save returns or throws. *)
Theorem clear_undoes_save
    (states : value) (namespace : string)
    (next : value -> value -> value * value) (action : value) (w : World) :
  (forall key, literal_prefix namespace key -> sessionStorage w !! key = None) ->
  sessionStorage
    (snd (clear (JStr namespace)
                (snd (save (mkSaveConfig states (JStr namespace) JUndefined)
                           next action w))))
  = sessionStorage w.
Proof.
  intros Hfree. apply map_eq. intros key. rewrite clear_lookup.
  change (clear_namespace (JStr namespace)) with namespace.
  destruct (String.eqb (slice0 (String.length namespace) key) namespace) eqn:E.
  - apply slice0_literal_prefix in E. symmetry. apply Hfree, E.
  - assert (Hnot : ~ literal_prefix namespace key).
    { intros H. apply slice0_literal_prefix in H. congruence. }
    rewrite save_run. cbv zeta.
    cbn [save_variables save_states save_namespace save_debounce or_default
         isString isInteger NAMESPACE_DEFAULT DEBOUNCE_DEFAULT string_of
         integer_of isFinite Math_floor number_eq andb Z.eqb negb].
    set (sts := array_elements _).
    set (w1 := validated_world _ next action w).
    assert (Hframe : sessionStorage (snd (_save sts namespace w1)) !! key
                     = sessionStorage w !! key).
    { rewrite _save_other_key; [reflexivity| |].
      - intros _ ->. apply Hnot, literal_prefix_refl.
      - intros st _ <-. apply Hnot, save_key_has_prefix. }
    unfold bind at 1.
    destruct (_save sts namespace w1) as [[[]|e] w2]; exact Hframe.
Qed.

(** ** Further properties of load *)

(** X17.  [load] does not guard [JSON.parse]: when the key it reads
    names no member of the Storage object and the text stored under it is
    not empty and is not JSON, a whole-tree load and a per-path load both
    throw the SyntaxError, leaving the world as it was. *)
Theorem load_malformed_json_throws
    (namespace p text : string) (preloadedState disableWarnings : value)
    (w : World) :
  text <> "" -> JSON_parse text = Threw SyntaxError ->
  (namespace <> "length" -> storage_member namespace = false ->
   sessionStorage w !! namespace = Some text ->
   load (mkLoadConfig JUndefined JUndefined (JStr namespace)
                      preloadedState disableWarnings) w
   = (Threw SyntaxError, w)) /\
  ((namespace +:+ "_") +:+ p <> "length" ->
   storage_member ((namespace +:+ "_") +:+ p) = false ->
   sessionStorage w !! ((namespace +:+ "_") +:+ p) = Some text ->
   load (mkLoadConfig (JArr [JStr p]) JUndefined (JStr namespace)
                      preloadedState disableWarnings) w
   = (Threw SyntaxError, w)).
Proof.
  intros Htext Hparse. split; intros Hlen Hmember Hstored.
  - rewrite (load_whole_tree_run _ _ _ _ Hlen Hmember), Hstored.
    destruct (String.eqb_spec text ""); [contradiction|].
    rewrite Hparse. reflexivity.
  - unfold load, validate_states, validate_namespace, load_state, getItem,
      bind, lift, ret.
    cbn -[lookup truthy_item String.append readProperty]. unfold bind, ret.
    cbn -[lookup truthy_item String.append readProperty].
    rewrite Hstored, (truthy_item_text _ Htext).
    rewrite (readProperty_item _ _ Hlen Hmember), Hstored.
    cbn [parse_read]. rewrite Hparse. reflexivity.
Qed.

(** X18.  A [states] option that is not an array makes [load] work on the
    whole tree: after the report on the console, [load] goes on as if
    [states] had been omitted. *)
Theorem load_invalid_states_loads_whole_tree (config : LoadConfig) (w : World) :
  isArray (load_states config) = false ->
  load_states config <> JUndefined ->
  load config w =
  load (mkLoadConfig JUndefined (load_immutablejs config) (load_namespace config)
                     (load_preloadedState config) (load_disableWarnings config))
       (with_console (console w ++ [states_error "load"]) w).
Proof.
  intros Harr Hdef. unfold load.
  cbn [load_states load_immutablejs load_namespace load_preloadedState
       load_disableWarnings].
  assert (Hor : or_default (load_states config) STATES_DEFAULT = load_states config)
    by (revert Hdef; destruct (load_states config); intros Hdef;
        [congruence|reflexivity..]).
  rewrite Hor. unfold validate_states. rewrite Harr.
  cbn [or_default STATES_DEFAULT isArray negb].
  unfold bind at 1 2. unfold console_log, ret at 1.
  unfold bind at 2. unfold ret at 3. reflexivity.
Qed.

(** X19.  A key that holds the empty text is handled as a missing key:
    [load] tests the truthiness of what [getItem] gives, so the step for
    that path keeps the accumulated state and warns. *)
Theorem load_empty_text_is_missing
    (namespace : string) (state disableWarnings loadedState : value) (w : World) :
  sessionStorage w !! add_string (namespace +:+ "_") state = Some "" ->
  load_state namespace disableWarnings loadedState state w =
  (Returned loadedState,
   if truthy disableWarnings then w
   else with_console
          (console w ++
           [console_warn MODULE_NAME
              (invalid_load_message (add_string (namespace +:+ "_") state))])
          w).
Proof.
  intros Hempty. unfold load_state, bind, getItem, warn. rewrite Hempty. simpl.
  destruct (truthy disableWarnings); reflexivity.
Qed.

(** ** Further properties of combineLoads and of the debounce handle *)


(** X21.  The module never sets [debounceTimeout] back to [null]: once a
    debounced save has set the handle, no step of the program, the firing
    of the timer included, clears it. *)
Theorem debounceTimeout_is_never_reset (w w' : World) :
  step w w' -> is_Some (debounceTimeout w) -> is_Some (debounceTimeout w').
Proof.
  intros Hstep Hset.
  assert (Hkeep : forall w1 w2 : World, slot w2 = slot w1 ->
            debounceTimeout w1 = debounceTimeout w -> is_Some (debounceTimeout w2)).
  { intros w1 w2 Hslot Hw1. unfold slot in Hslot.
    injection Hslot as -> _ _. rewrite Hw1. exact Hset. }
  destruct Hstep as [config next action w|t w Hin|config w|ns w|loads w].
  - rewrite save_run. cbv zeta.
    destruct (negb (integer_of (save_debounce (save_variables config)) =? 0)).
    + unfold bind, read_debounceTimeout, setTimeout_save, ret.
      destruct (truthy_handle _); cbn; eauto.
    + apply (Hkeep w); [|reflexivity].
      rewrite (keeps_bind slot _ _ (_save_keeps_slot _ _)
                          (fun _ => keeps_ret slot _)).
      reflexivity.
  - unfold fire, bind at 1, clearTimeout.
    eapply Hkeep; [apply _save_keeps_slot|reflexivity].
  - apply (Hkeep w); [apply load_keeps_slot|reflexivity].
  - apply (Hkeep w); [apply clear_keeps_slot|reflexivity].
  - apply (Hkeep w); [apply combineLoads_keeps_slot|reflexivity].
Qed.

(** ** What per-path save leaves in the store *)

Lemma forEach_save_state_effect namespace states key w :
  fst (forEach states (save_state namespace) w) = Returned tt ->
  (exists q, JStr q ∈ states /\ key = (namespace +:+ "_") +:+ q) \/
  sessionStorage (snd (forEach states (save_state namespace) w)) !! key
  = sessionStorage w !! key.
Proof.
  revert w. induction states as [|s states IH]; intros w; [right; reflexivity|].
  cbn [forEach]. unfold bind. rewrite save_state_run.
  destruct s as [| |b|n|q|l|props]; try (cbn; discriminate).
  destruct (getStateForSessionStorage (JStr q) (reduxState w)) as [v|e];
    [|cbn; discriminate].
  intros Hret.
  destruct (decide (key = (namespace +:+ "_") +:+ q)) as [Hk|Hk].
  { left. exists q. split; [left|exact Hk]. }
  destruct (IH _ Hret) as [(q' & Hin & Hq')|Hsame].
  - left. exists q'. split; [right; exact Hin|exact Hq'].
  - right. rewrite Hsame. cbn [with_storage sessionStorage add_string].
    destruct (truthy v);
      [apply lookup_insert_ne|apply lookup_delete_ne]; congruence.
Qed.

Lemma forEach_save_state_postcondition namespace states p w :
  fst (forEach states (save_state namespace) w) = Returned tt ->
  JStr p ∈ states ->
  exists v,
    lensPath (split delimiter p) (reduxState w) = Returned v /\
    sessionStorage (snd (forEach states (save_state namespace) w))
      !! ((namespace +:+ "_") +:+ p)
    = if truthy v then Some (JSON_stringify v) else None.
Proof.
  revert w. induction states as [|s states IH]; intros w Hret Hin;
    [inversion Hin|].
  cbn [forEach] in *. unfold bind in *. rewrite save_state_run in *.
  destruct (getStateForSessionStorage s (reduxState w)) as [v0|e] eqn:Hget;
    [|cbn in Hret; discriminate].
  set (w1 := with_storage _ w) in *.
  pose proof (forEach_save_state_effect namespace states
                ((namespace +:+ "_") +:+ p) w1 Hret) as Heffect.
  assert (Hlater : JStr p ∈ states ->
    exists v,
      lensPath (split delimiter p) (reduxState w) = Returned v /\
      sessionStorage (snd (forEach states (save_state namespace) w1))
        !! ((namespace +:+ "_") +:+ p)
      = if truthy v then Some (JSON_stringify v) else None).
  { intros Hin'. apply (IH w1 Hret Hin'). }
  apply elem_of_cons in Hin as [<-|Hin]; [|apply Hlater, Hin].
  destruct Heffect as [(q & Hq & Hkey)|Hsame].
  - apply (inj (String.append (namespace +:+ "_"))) in Hkey. subst q.
    apply Hlater, Hq.
  - rewrite getStateForSessionStorage_string in Hget.
    exists v0. split; [exact Hget|]. rewrite Hsame.
    unfold w1. cbn [with_storage sessionStorage add_string].
    destruct (truthy v0); [apply lookup_insert_eq|apply lookup_delete_eq].
Qed.

Lemma own_path_lens path obj :
  path <> [] -> own_path path obj = true ->
  exists v, lensPath path obj = Returned v.
Proof.
  revert obj. induction path as [|k rest IH]; [congruence|].
  intros obj _ Hown.
  assert (Hget : exists inner,
            obj <> JUndefined /\ get obj k = Returned inner /\
            own_path rest inner = true).
  { destruct obj as [| |b|n|s|l|props]; try discriminate Hown; cbn in Hown |- *.
    - destruct (index_of k (length l)) as [i|]; [|discriminate].
      eexists. split; [discriminate|]. split; [reflexivity|exact Hown].
    - destruct (assoc k props) as [inner|]; [|discriminate].
      exists inner. split; [discriminate|]. split; [reflexivity|exact Hown]. }
  destruct Hget as (inner & Hdef & Hget & Hrest).
  destruct rest as [|k' rest'].
  - exists inner. rewrite lensPath_single by exact Hdef. exact Hget.
  - destruct (IH inner ltac:(discriminate) Hrest) as [v Hv].
    exists v. rewrite lensPath_step by exact Hdef. rewrite Hget. exact Hv.
Qed.

Lemma forEach_save_state_returns namespace states w :
  (forall state, state ∈ states ->
     exists q, state = JStr q /\
               own_path (split delimiter q) (reduxState w) = true) ->
  fst (forEach states (save_state namespace) w) = Returned tt.
Proof.
  revert w. induction states as [|s states IH]; intros w Hown; [reflexivity|].
  cbn [forEach]. unfold bind. rewrite save_state_run.
  destruct (Hown s ltac:(left)) as (q & -> & Hq).
  rewrite getStateForSessionStorage_string.
  destruct (own_path_lens _ _ (split_nonempty delimiter q) Hq) as [v ->].
  apply IH. intros st Hin. apply Hown. right. exact Hin.
Qed.

(** X22.  What a per-path [_save] leaves in the store when every path of
    [states] is a string whose segments are own properties of the state
    all the way down: [_save] returns, and for every path the key
    namespace_path holds the JSON text of the value at the path when that
    value is truthy, and is absent otherwise. *)
Theorem save_per_path_postcondition
    (states : list value) (namespace : string) (w : World) :
  (forall state, state ∈ states ->
     exists q, state = JStr q /\
               own_path (split delimiter q) (reduxState w) = true) ->
  fst (_save states namespace w) = Returned tt /\
  forall p, JStr p ∈ states ->
    exists v,
      lensPath (split delimiter p) (reduxState w) = Returned v /\
      sessionStorage (snd (_save states namespace w))
        !! ((namespace +:+ "_") +:+ p)
      = if truthy v then Some (JSON_stringify v) else None.
Proof.
  intros Hown. unfold _save.
  destruct states as [|s states].
  { split; [reflexivity|]. intros p Hin. inversion Hin. }
  cbn [length Nat.eqb].
  pose proof (forEach_save_state_returns namespace (s :: states) w Hown) as Hret.
  split; [exact Hret|].
  intros p Hin. apply forEach_save_state_postcondition; assumption.
Qed.

(** ** Further properties of load, continued *)

(** X23.  Whole-tree [load] under a namespace that names no member of the
    Storage object, on a store that lacks the namespace key or holds the
    empty text there, returns [preloadedState] (the empty object when it
    is omitted) and, unlike per-path load, tells the console nothing. *)
Theorem load_whole_tree_without_data
    (namespace : string) (preloadedState disableWarnings : value) (w : World) :
  namespace <> "length" -> storage_member namespace = false ->
  sessionStorage w !! namespace = None \/
  sessionStorage w !! namespace = Some "" ->
  load (mkLoadConfig JUndefined JUndefined (JStr namespace)
                     preloadedState disableWarnings) w
  = (Returned (or_default preloadedState (JObj [])), w).
Proof.
  intros Hlen Hmember Hstore.
  rewrite (load_whole_tree_run _ _ _ _ Hlen Hmember).
  destruct Hstore as [-> | ->]; reflexivity.
Qed.

(** X25.  Whole-tree [load] under a namespace that names a member of the
    Storage object never sees the stored item: under the name of a method
    it throws a SyntaxError whatever the store holds, and under [length]
    it parses the number of items, or returns [preloadedState] when the
    store is empty. *)
Theorem load_namespace_naming_a_member
    (namespace : string) (preloadedState disableWarnings : value) (w : World) :
  (namespace <> "length" -> storage_member namespace = true ->
   load (mkLoadConfig JUndefined JUndefined (JStr namespace)
                      preloadedState disableWarnings) w
   = (Threw SyntaxError, w)) /\
  load (mkLoadConfig JUndefined JUndefined (JStr "length")
                     preloadedState disableWarnings) w
  = (if (size (sessionStorage w) =? 0)%nat
     then Returned (or_default preloadedState (JObj []))
     else JSON_parse
            (ToString (JNum (NInt (Z.of_nat (size (sessionStorage w)))))),
     w).
Proof.
  split.
  - intros Hlen Hmember.
    unfold load, validate_states, validate_namespace, readProperty, bind,
      lift, ret.
    cbn -[lookup size]. unfold bind, ret. cbn -[lookup size].
    rewrite Hmember.
    destruct (String.eqb_spec namespace "length"); [contradiction|reflexivity].
  - unfold load, validate_states, validate_namespace, readProperty, bind,
      lift, ret.
    cbn -[lookup size]. unfold bind, ret. cbn -[lookup size].
    destruct (size (sessionStorage w) =? 0)%nat; reflexivity.
Qed.

Lemma agree_ret {A} (a : A) : agree (ret a) (ret a).
Proof. intros w w' H. split; [reflexivity|exact H]. Qed.

Lemma agree_lift {A} (r : result A) : agree (lift r) (lift r).
Proof. intros w w' H. split; [reflexivity|exact H]. Qed.

Lemma agree_bind {A B} (c c' : M A) (k k' : A -> M B) :
  agree c c' -> (forall a, agree (k a) (k' a)) -> agree (bind c k) (bind c' k').
Proof.
  intros Hc Hk w w' H. unfold bind. destruct (Hc w w' H) as [Hfst Hsnd].
  destruct (c w) as [[a|e] w1], (c' w') as [[a'|e'] w1']; cbn in *;
    try discriminate.
  - injection Hfst as <-. apply Hk, Hsnd.
  - injection Hfst as <-. split; [reflexivity|exact Hsnd].
Qed.

Lemma agree_foldM {A B} (f f' : B -> A -> M B) (l : list A) (b : B) :
  (forall b x, agree (f b x) (f' b x)) -> agree (foldM f b l) (foldM f' b l).
Proof.
  intros Hf. revert b. induction l as [|x l IH]; intros b; cbn [foldM].
  - apply agree_ret.
  - apply agree_bind; [apply Hf|exact IH].
Qed.

Lemma agree_console {A} (c1 c2 : M unit) (k k' : M A) :
  (forall w, fst (c1 w) = Returned tt /\ sessionStorage (snd (c1 w)) = sessionStorage w) ->
  (forall w, fst (c2 w) = Returned tt /\ sessionStorage (snd (c2 w)) = sessionStorage w) ->
  agree k k' ->
  agree (bind c1 (fun _ => k)) (bind c2 (fun _ => k')).
Proof.
  intros H1 H2 Hk w w' H. unfold bind.
  destruct (H1 w) as [Hf1 Hs1], (H2 w') as [Hf2 Hs2].
  destruct (c1 w) as [r1 w1], (c2 w') as [r2 w2]; cbn in *. subst r1 r2.
  apply Hk. congruence.
Qed.

Lemma warn_quiet d m w :
  fst (warn d m w) = Returned tt /\
  sessionStorage (snd (warn d m w)) = sessionStorage w.
Proof. unfold warn. destruct (negb (truthy d)); split; reflexivity. Qed.

Lemma getItem_agree key : agree (getItem key) (getItem key).
Proof.
  intros w w' H. unfold getItem. cbn. rewrite H. split; reflexivity.
Qed.

Lemma readProperty_agree key : agree (readProperty key) (readProperty key).
Proof.
  intros w w' H. unfold readProperty. cbn. rewrite H. split; reflexivity.
Qed.

Lemma load_state_agree namespace d d' acc state :
  agree (load_state namespace d acc state) (load_state namespace d' acc state).
Proof.
  unfold load_state. apply agree_bind; [apply getItem_agree|intros item].
  destruct (truthy_item item).
  - apply agree_bind; [apply readProperty_agree|intros read].
    apply agree_bind; [apply agree_lift|intros parsed].
    apply agree_bind; [apply agree_lift|intros realised]. apply agree_ret.
  - apply agree_console; [intros w; apply warn_quiet..|apply agree_ret].
Qed.

(** X24.  The options [immutablejs] and [disableWarnings] have no effect
    on what [load] gives: with any values for them, [load] returns or
    throws the same, and leaves the same store. *)
Theorem load_ignores_immutablejs_and_disableWarnings
    (config : LoadConfig) (immutablejs disableWarnings : value) (w : World) :
  fst (load (mkLoadConfig (load_states config) immutablejs (load_namespace config)
                          (load_preloadedState config) disableWarnings) w)
  = fst (load config w) /\
  sessionStorage
    (snd (load (mkLoadConfig (load_states config) immutablejs
                             (load_namespace config)
                             (load_preloadedState config) disableWarnings) w))
  = sessionStorage (snd (load config w)).
Proof.
  revert w.
  assert (Hagree : agree
    (load (mkLoadConfig (load_states config) immutablejs (load_namespace config)
                        (load_preloadedState config) disableWarnings))
    (load config)); [|intros w; apply Hagree; reflexivity].
  unfold load.
  cbn [load_states load_immutablejs load_namespace load_preloadedState
       load_disableWarnings].
  apply agree_bind; [|intros states].
  { unfold validate_states. destruct (negb _).
    - apply agree_bind; [|intros; apply agree_ret].
      intros w w' H. split; [reflexivity|exact H].
    - apply agree_ret. }
  apply agree_bind; [|intros namespace].
  { unfold validate_namespace. destruct (negb _).
    - apply agree_bind; [|intros; apply agree_ret].
      intros w w' H. split; [reflexivity|exact H].
    - apply agree_ret. }
  apply agree_console.
  - intros w. destruct (is_true _); [apply warn_quiet|split; reflexivity].
  - intros w. destruct (is_true _); [apply warn_quiet|split; reflexivity].
  - destruct (length states =? 0)%nat.
    + apply agree_bind.
      * apply readProperty_agree.
      * intros read. destruct (truthy_read read);
          [apply agree_lift|apply agree_ret].
    + apply agree_foldM. intros b x. apply load_state_agree.
Qed.

End Host.

(** ** The statements on concrete inputs *)

(** The sample printer on the state of the spec's examples. *)
Example sample_stringify_user :
  sample_stringify (JObj [("name", JStr "a"); ("n", JNum (NInt 12))])
  = "{" +:+ quote +:+ "name" +:+ quote +:+ ":" +:+ quote +:+ "a" +:+ quote +:+ ","
    +:+ quote +:+ "n" +:+ quote +:+ ":12}".
Proof. vm_compute. reflexivity. Qed.

(** C4 on a concrete path and sub-tree. *)
Lemma realise_lens_roundtrip_witness :
  JNum (NInt 123) <> JUndefined /\
  lensPath (split delimiter "a.b.c")
           (objectMerge (JObj []) (realiseObject "a.b.c" (JNum (NInt 123))))
  = Returned (JNum (NInt 123)).
Proof.
  split; [discriminate|].
  apply (realise_lens_roundtrip "a.b.c" (JNum (NInt 123))). discriminate.
Defined.

(** C5 on the leaf 5. *)
Lemma realiseObject_builds_nested_mapping_witness :
  JNum (NInt 5) <> JUndefined /\
  realiseObject "a.b.c" (JNum (NInt 5))
  = JObj [("a", JObj [("b", JObj [("c", JNum (NInt 5))])])] /\
  realiseObject "x" (JNum (NInt 5)) = JObj [("x", JNum (NInt 5))].
Proof.
  split; [discriminate|].
  destruct (realiseObject_builds_nested_mapping (JNum (NInt 5)))
    as (Habc & Hx & _); [discriminate|].
  split; [exact Habc|exact Hx].
Defined.

(** C6 on the spec's example: [load({states:['user'], namespace:'app'})]
    on an empty store. *)
Lemma load_absent_key_warns_once_witness :
  sessionStorage (fresh_world ∅ JNull)
    !! add_string sample_ToString ("app" +:+ "_") (JStr "user") = None /\
  load sample_parse sample_ToString sample_storage_member
       (mkLoadConfig (JArr [JStr "user"]) JUndefined (JStr "app")
                     (JObj [("user", JNull)]) JUndefined)
       (fresh_world ∅ JNull)
  = (Returned (JObj [("user", JNull)]),
     with_console
       [console_warn MODULE_NAME (invalid_load_message "app_user")]
       (fresh_world ∅ JNull)) /\
  load sample_parse sample_ToString sample_storage_member
       (mkLoadConfig (JArr [JStr "user"]) JUndefined (JStr "app")
                     (JObj [("user", JNull)]) (JBool true))
       (fresh_world ∅ JNull)
  = (Returned (JObj [("user", JNull)]), fresh_world ∅ JNull).
Proof.
  split; [reflexivity|].
  destruct (load_absent_key_warns_once sample_parse sample_ToString sample_storage_member
              "app" (JStr "user") JUndefined JNull (JObj [("user", JNull)])
              (fresh_world ∅ JNull))
    as (_ & Hone & Hnone); [reflexivity|].
  split; [exact Hone|exact Hnone].
Defined.

(** C7 on a store with the keys app_user, app2_x and other. *)
Lemma clear_removes_exactly_prefixed_witness :
  let w := fresh_world
             (<["app_user" := "1"]> (<["app2_x" := "2"]> {["other" := "3"]}))
             JNull in
  literal_prefix "app" "app2_x" /\
  ~ literal_prefix "app" "other" /\
  sessionStorage (snd (clear (JStr "app") w)) !! "app_user" = None /\
  sessionStorage (snd (clear (JStr "app") w)) !! "app2_x" = None /\
  sessionStorage (snd (clear (JStr "app") w)) !! "other" = Some "3".
Proof.
  intros w.
  assert (Hother : ~ literal_prefix "app" "other")
    by (intros [rest Hrest]; discriminate Hrest).
  destruct (clear_removes_exactly_prefixed "app" w)
    as (_ & Hgone & Hkept & Hex).
  split; [exact Hex|]. split; [exact Hother|].
  split; [apply Hgone; exists "_user"; reflexivity|].
  split; [apply Hgone; exact Hex|].
  rewrite (Hkept "other" Hother). reflexivity.
Defined.

(** C3: a negative integer is not a non-negative integer, yet [save] does
    not report it, saves nothing at once and schedules a timer with it. *)
Lemma negative_debounce_schedules_timer :
  let w' := snd (save sample_stringify sample_ToString
                      (mkSaveConfig JUndefined JUndefined (JNum (NInt (-5))))
                      pass_through JNull (fresh_world ∅ (JObj []))) in
  console w' = [] /\
  timers w' = [mkTimer 1 (-5) [] "redux_sessionstorage_simple"] /\
  sessionStorage w' !! "redux_sessionstorage_simple" = None.
Proof. vm_compute. repeat split. Qed.

(** C3 (amended) on the debounce values one and a half and 500. *)
Lemma save_debounce_validation_witness :
  let w := fresh_world ∅ (JObj []) in
  let run debounce :=
    save sample_stringify sample_ToString
         (mkSaveConfig JUndefined JUndefined debounce) pass_through JNull w in
  isInteger (JNum (NFrac 1)) = false /\
  last (console (snd (run (JNum (NFrac 1))))) = Some debounce_error /\
  fst (run (JNum (NFrac 1))) = Returned JNull /\
  slot (snd (run (JNum (NFrac 1)))) = slot w /\
  500 <> 0 /\
  mkTimer 1 500 [] "redux_sessionstorage_simple"
    ∈ timers (snd (run (JNum (NInt 500)))).
Proof.
  intros w run.
  destruct (save_debounce_validation sample_stringify sample_ToString
              (mkSaveConfig JUndefined JUndefined (JNum (NFrac 1)))
              pass_through JNull w) as [Hbad _].
  destruct (Hbad eq_refl) as (Hlast & _ & _ & Hslot & Hret).
  destruct (save_debounce_validation sample_stringify sample_ToString
              (mkSaveConfig JUndefined JUndefined (JNum (NInt 500)))
              pass_through JNull w) as [_ Hint].
  destruct (Hint 500 eq_refl ltac:(discriminate)) as (_ & _ & _ & Htimer).
  split; [reflexivity|]. split; [exact Hlast|].
  split; [exact (Hret eq_refl)|].
  split; [exact Hslot|]. split; [discriminate|exact Htimer].
Defined.

(** A fresh world is reachable. *)
Lemma fresh_world_reachable store state :
  reachable sample_stringify sample_parse sample_ToString sample_storage_member
            (fresh_world store state).
Proof.
  exists (fresh_world store state). split; [|apply rtc_refl].
  repeat split. simpl. lia.
Defined.

(** C9 on two debounced requests in a row: the second finds the timer of
    the first pending and replaces it; the timer that then fires is the
    one of the second request, and its one write is the state after the
    second action. *)
Lemma debounce_single_slot_witness :
  let config := mkSaveConfig JUndefined (JStr "app") (JNum (NInt 500)) in
  let adopt := fun action state : value => (JUndefined, action) in
  let w0 := fresh_world ∅ (JObj []) in
  let w1 := snd (save sample_stringify sample_ToString config adopt
                      (JObj [("n", JNum (NInt 1))]) w0) in
  let w2 := snd (save sample_stringify sample_ToString config adopt
                      (JObj [("n", JNum (NInt 2))]) w1) in
  let t1 := mkTimer 1 500 [] "app" in
  let t2 := mkTimer 2 500 [] "app" in
  reachable sample_stringify sample_parse sample_ToString sample_storage_member w1 /\
  reachable sample_stringify sample_parse sample_ToString sample_storage_member w2 /\
  or_default (save_debounce config) DEBOUNCE_DEFAULT = JNum (NInt 500) /\
  500 <> 0 /\
  timers w1 = [t1] /\
  (length (timers w1) <= 1)%nat /\
  timers w2 = [t2] /\
  debounceTimeout w2 = Some 2%nat /\
  sessionStorage w2 = sessionStorage w1 /\
  t2 ∈ timers w2 /\
  timer_states t2 = [] /\
  timers (snd (fire sample_stringify sample_ToString t2 w2)) = [] /\
  sessionStorage (snd (fire sample_stringify sample_ToString t2 w2))
  = <["app" := sample_stringify (JObj [("n", JNum (NInt 2))])]>
      (sessionStorage w2).
Proof.
  intros config adopt w0 w1 w2 t1 t2.
  destruct (debounce_single_slot sample_stringify sample_parse sample_ToString
              sample_storage_member)
    as (Hone & Hrequest & Hfire & Hwrite).
  pose proof (fresh_world_reachable ∅ (JObj [])) as Hw0.
  assert (Hw1 : reachable sample_stringify sample_parse sample_ToString
                          sample_storage_member w1).
  { exists w0. split; [repeat split; simpl; lia|].
    eapply rtc_l; [apply step_dispatch|apply rtc_refl]. }
  assert (Hw2 : reachable sample_stringify sample_parse sample_ToString
                          sample_storage_member w2).
  { exists w0. split; [repeat split; simpl; lia|].
    eapply rtc_l; [apply step_dispatch|].
    eapply rtc_l; [apply step_dispatch|apply rtc_refl]. }
  assert (Hnz : 500 <> 0) by discriminate.
  destruct (Hrequest w0 config adopt (JObj [("n", JNum (NInt 1))]) 500
                     Hw0 eq_refl Hnz) as (Htimers1 & _ & _).
  destruct (Hrequest w1 config adopt (JObj [("n", JNum (NInt 2))]) 500
                     Hw1 eq_refl Hnz) as (Htimers2 & Hhandle2 & Hstore2).
  assert (Hin : t2 ∈ timers w2) by (left).
  destruct (Hfire w2 t2 Hw2 Hin) as (_ & _ & Hnone).
  split; [exact Hw1|]. split; [exact Hw2|]. split; [reflexivity|].
  split; [exact Hnz|]. split; [exact Htimers1|].
  split; [exact (Hone w1 Hw1)|]. split; [exact Htimers2|].
  split; [exact Hhandle2|]. split; [exact Hstore2|].
  split; [exact Hin|]. split; [reflexivity|].
  split; [exact Hnone|].
  exact (Hwrite w2 t2 Hw2 Hin eq_refl).
Defined.

(** The spec's debounce example: two [save] requests with [debounce: 500]
    before the first timer fires.  The second request cancels the first
    timer; when the remaining timer fires there is one write, of the
    state after the second action. *)
Example two_debounced_saves_one_write :
  let save500 :=
    save sample_stringify sample_ToString
         (mkSaveConfig JUndefined (JStr "app") (JNum (NInt 500))) in
  let set_state (action state : value) := (JUndefined, action) in
  let w1 := snd (save500 set_state (JObj [("n", JNum (NInt 1))])
                         (fresh_world ∅ (JObj []))) in
  let w2 := snd (save500 set_state (JObj [("n", JNum (NInt 2))]) w1) in
  let w3 := snd (fire sample_stringify sample_ToString
                      (mkTimer 2 500 [] "app") w2) in
  timers w1 = [mkTimer 1 500 [] "app"] /\
  sessionStorage w1 = ∅ /\
  timers w2 = [mkTimer 2 500 [] "app"] /\
  sessionStorage w2 = ∅ /\
  timers w3 = [] /\
  sessionStorage w3
  = {["app" := sample_stringify (JObj [("n", JNum (NInt 2))])]}.
Proof. vm_compute. repeat split. Qed.

(** ** The further properties on concrete inputs *)

(** X3 on the path a.b of the state [{a: {b: 1}}]. *)
Lemma lensPath_app_witness :
  lensPath ["a"] (JObj [("a", JObj [("b", JNum (NInt 1))])])
  = Returned (JObj [("b", JNum (NInt 1))]) /\
  lensPath (["a"] ++ ["b"]) (JObj [("a", JObj [("b", JNum (NInt 1))])])
  = lensPath ["b"] (JObj [("b", JNum (NInt 1))]).
Proof.
  split; [reflexivity|].
  apply lensPath_app; [discriminate|discriminate|reflexivity|
                       discriminate|discriminate].
Defined.

(** X6 on the spec's example: saving the path user does not touch the key
    app_products. *)
Lemma save_touches_only_its_keys_witness :
  let w := fresh_world {["app_products" := "[1,2]"]}
                       (JObj [("user", JObj [("name", JStr "a")])]) in
  add_string sample_ToString ("app" +:+ "_") (JStr "user") <> "app_products" /\
  sessionStorage (snd (_save sample_stringify sample_ToString
                             [JStr "user"] "app" w)) !! "app_products"
  = Some "[1,2]".
Proof.
  intros w. split; [discriminate|].
  rewrite (save_touches_only_its_keys sample_stringify sample_ToString
             [JStr "user"] "app" "app_products" w).
  - reflexivity.
  - discriminate.
  - intros state Hin. apply list_elem_of_singleton in Hin. subst state.
    discriminate.
Defined.

(** X9 on [save()] with no configuration. *)
Lemma save_whole_tree_witness :
  let config := mkSaveConfig JUndefined JUndefined JUndefined in
  array_elements (save_states (save_variables config)) = [] /\
  integer_of (save_debounce (save_variables config)) = 0 /\
  sessionStorage
    (snd (save sample_stringify sample_ToString config pass_through JNull
               (fresh_world ∅ (JObj []))))
  = <["redux_sessionstorage_simple" := sample_stringify (JObj [])]> ∅.
Proof.
  intros config. split; [reflexivity|]. split; [reflexivity|].
  rewrite (save_whole_tree sample_stringify sample_ToString config pass_through
             JNull (fresh_world ∅ (JObj [])) eq_refl eq_refl).
  reflexivity.
Defined.


(** X12 on the path user of the state [{user: {}}]. *)
Lemma save_then_load_path_witness :
  let w := fresh_world ∅ (JObj [("user", JObj [])]) in
  lensPath (split delimiter "user") (snd (pass_through JNull (reduxState w)))
  = Returned (JObj []) /\
  truthy (JObj []) = true /\
  fst (load sample_parse sample_ToString sample_storage_member
            (mkLoadConfig (JArr [JStr "user"]) JUndefined (JStr "app")
                          JUndefined JUndefined)
            (snd (save sample_stringify sample_ToString
                       (mkSaveConfig (JArr [JStr "user"]) (JStr "app") JUndefined)
                       pass_through JNull w)))
  = Returned (JObj [("user", JObj [])]).
Proof.
  intros w. split; [reflexivity|]. split; [reflexivity|].
  apply (save_then_load_path sample_stringify sample_parse sample_ToString
           sample_storage_member
           "app" "user" pass_through JNull (JObj []) w).
  - reflexivity.
  - reflexivity.
  - discriminate.
  - reflexivity.
  - reflexivity.
  - discriminate.
Defined.

(** A fresh world satisfies the single-slot invariant. *)
Lemma fresh_world_single_slot store state : single_slot (fresh_world store state).
Proof. split; [simpl; lia|left; reflexivity]. Defined.

(** X13 on a request with [debounce: 500] in a fresh world. *)
Lemma debounced_save_fires_like_synchronous_witness :
  let w := fresh_world ∅ (JObj []) in
  let debounced := mkSaveConfig JUndefined (JStr "app") (JNum (NInt 500)) in
  single_slot w /\ 500 <> 0 /\
  sessionStorage
    (snd (fire sample_stringify sample_ToString (mkTimer 1 500 [] "app")
               (snd (save sample_stringify sample_ToString debounced
                          pass_through JNull w))))
  = sessionStorage
      (snd (save sample_stringify sample_ToString
                 (mkSaveConfig JUndefined (JStr "app") (JNum (NInt 0)))
                 pass_through JNull w)).
Proof.
  intros w debounced.
  pose proof (fresh_world_single_slot ∅ (JObj [])) as Hw.
  split; [exact Hw|]. split; [discriminate|].
  apply (debounced_save_fires_like_synchronous sample_stringify sample_ToString
           debounced pass_through JNull w 500 Hw eq_refl).
  discriminate.
Defined.

(** X16 on a store that holds the key other only. *)
Lemma clear_undoes_save_witness :
  let w := fresh_world {["other" := "3"]} (JObj [("user", JStr "a")]) in
  (forall key, literal_prefix "app" key -> sessionStorage w !! key = None) /\
  sessionStorage
    (snd (clear (JStr "app")
                (snd (save sample_stringify sample_ToString
                           (mkSaveConfig (JArr [JStr "user"]) (JStr "app")
                                         JUndefined)
                           pass_through JNull w))))
  = {["other" := "3"]}.
Proof.
  intros w.
  assert (Hfree : forall key, literal_prefix "app" key ->
                              sessionStorage w !! key = None).
  { intros key [rest ->]. apply lookup_singleton_ne. discriminate. }
  split; [exact Hfree|].
  apply (clear_undoes_save sample_stringify sample_ToString
           (JArr [JStr "user"]) "app" pass_through JNull w Hfree).
Defined.

(** X17 on a store that holds an unfinished object under app and under
    app_user. *)
Lemma load_malformed_json_throws_witness :
  let w := fresh_world (<["app" := "{"]> {["app_user" := "{"]}) JNull in
  "{" <> "" /\ sample_parse "{" = Threw SyntaxError /\
  "app" <> "length" /\ sample_storage_member "app" = false /\
  sessionStorage w !! "app" = Some "{" /\
  ("app" +:+ "_") +:+ "user" <> "length" /\
  sample_storage_member (("app" +:+ "_") +:+ "user") = false /\
  sessionStorage w !! (("app" +:+ "_") +:+ "user") = Some "{" /\
  load sample_parse sample_ToString sample_storage_member
       (mkLoadConfig JUndefined JUndefined (JStr "app") JUndefined JUndefined) w
  = (Threw SyntaxError, w) /\
  load sample_parse sample_ToString sample_storage_member
       (mkLoadConfig (JArr [JStr "user"]) JUndefined (JStr "app")
                     JUndefined JUndefined) w
  = (Threw SyntaxError, w).
Proof.
  intros w.
  assert (Htext : "{" <> "") by discriminate.
  assert (Hlen : "app" <> "length") by discriminate.
  assert (Hlen' : ("app" +:+ "_") +:+ "user" <> "length") by discriminate.
  destruct (load_malformed_json_throws sample_parse sample_ToString
              sample_storage_member
              "app" "user" "{" JUndefined JUndefined w Htext eq_refl)
    as [Hwhole Hpath].
  split; [exact Htext|]. split; [reflexivity|].
  split; [exact Hlen|]. split; [reflexivity|]. split; [reflexivity|].
  split; [exact Hlen'|]. split; [reflexivity|]. split; [reflexivity|].
  split; [exact (Hwhole Hlen eq_refl eq_refl)|exact (Hpath Hlen' eq_refl eq_refl)].
Defined.

(** X18 on [load({states: 'user'})]. *)
Lemma load_invalid_states_loads_whole_tree_witness :
  let config := mkLoadConfig (JStr "user") JUndefined JUndefined JUndefined
                             JUndefined in
  let w := fresh_world ∅ JNull in
  isArray (load_states config) = false /\
  load_states config <> JUndefined /\
  load sample_parse sample_ToString sample_storage_member config w =
  load sample_parse sample_ToString sample_storage_member
       (mkLoadConfig JUndefined JUndefined JUndefined JUndefined JUndefined)
       (with_console (console w ++ [states_error "load"]) w).
Proof.
  intros config w. split; [reflexivity|]. split; [discriminate|].
  apply (load_invalid_states_loads_whole_tree sample_parse sample_ToString sample_storage_member
           config w); [reflexivity|discriminate].
Defined.

(** X19 on a store that holds the empty text under app_user. *)
Lemma load_empty_text_is_missing_witness :
  let w := fresh_world {["app_user" := ""]} JNull in
  sessionStorage w !! add_string sample_ToString ("app" +:+ "_") (JStr "user")
  = Some "" /\
  load_state sample_parse sample_ToString sample_storage_member "app" (JBool true) (JObj [])
             (JStr "user") w
  = (Returned (JObj []), w).
Proof.
  intros w. split; [reflexivity|].
  apply (load_empty_text_is_missing sample_parse sample_ToString sample_storage_member
           "app" (JStr "user") (JBool true) (JObj []) w).
  reflexivity.
Defined.

(** X21 on a call of [load] in a world whose handle is set. *)
Lemma debounceTimeout_is_never_reset_witness :
  let w := mkWorld ∅ [] (Some 1%nat) [] 2 JNull in
  let config := mkLoadConfig JUndefined JUndefined JUndefined JUndefined
                             JUndefined in
  is_Some (debounceTimeout w) /\
  is_Some (debounceTimeout (snd (load sample_parse sample_ToString sample_storage_member config w))).
Proof.
  intros w config.
  assert (Hset : is_Some (debounceTimeout w)) by (exists 1%nat; reflexivity).
  split; [exact Hset|].
  apply (debounceTimeout_is_never_reset sample_stringify sample_parse
           sample_ToString sample_storage_member w _
           (step_load sample_stringify sample_parse sample_ToString sample_storage_member config w)
           Hset).
Defined.

(** X22 on the paths user.name and count of a state that has both, the
    second holding 0. *)
Lemma save_per_path_postcondition_witness :
  let state := JObj [("user", JObj [("name", JStr "a")]);
                     ("count", JNum (NInt 0))] in
  let w := fresh_world {["app_count" := "5"]} state in
  let w' := snd (_save sample_stringify sample_ToString
                       [JStr "user.name"; JStr "count"] "app" w) in
  own_path (split delimiter "user.name") state = true /\
  own_path (split delimiter "count") state = true /\
  fst (_save sample_stringify sample_ToString
             [JStr "user.name"; JStr "count"] "app" w) = Returned tt /\
  (exists v,
     lensPath (split delimiter "user.name") state = Returned v /\
     sessionStorage w' !! (("app" +:+ "_") +:+ "user.name")
     = if truthy v then Some (sample_stringify v) else None) /\
  (exists v,
     lensPath (split delimiter "count") state = Returned v /\
     sessionStorage w' !! (("app" +:+ "_") +:+ "count")
     = if truthy v then Some (sample_stringify v) else None).
Proof.
  intros state w w'.
  destruct (save_per_path_postcondition sample_stringify sample_ToString
              [JStr "user.name"; JStr "count"] "app" w) as [Hret Hpost].
  { intros st Hin. apply elem_of_cons in Hin as [->|Hin].
    - exists "user.name". split; reflexivity.
    - apply list_elem_of_singleton in Hin. subst st.
      exists "count". split; reflexivity. }
  split; [reflexivity|]. split; [reflexivity|]. split; [exact Hret|].
  split; [apply Hpost; left|apply Hpost; right; left].
Defined.

(** X23 on the empty store and on a store that holds the empty text. *)
Lemma load_whole_tree_without_data_witness :
  let w := fresh_world ∅ JNull in
  let w' := fresh_world {["app" := ""]} JNull in
  "app" <> "length" /\ sample_storage_member "app" = false /\
  sessionStorage w !! "app" = None /\
  sessionStorage w' !! "app" = Some "" /\
  load sample_parse sample_ToString sample_storage_member
       (mkLoadConfig JUndefined JUndefined (JStr "app") JUndefined JUndefined) w
  = (Returned (JObj []), w) /\
  load sample_parse sample_ToString sample_storage_member
       (mkLoadConfig JUndefined JUndefined (JStr "app")
                     (JObj [("user", JNull)]) JUndefined) w'
  = (Returned (JObj [("user", JNull)]), w').
Proof.
  intros w w'.
  assert (Hlen : "app" <> "length") by discriminate.
  split; [exact Hlen|]. split; [reflexivity|].
  split; [reflexivity|]. split; [reflexivity|]. split.
  - apply (load_whole_tree_without_data sample_parse sample_ToString
             sample_storage_member "app" JUndefined JUndefined w Hlen eq_refl).
    left. reflexivity.
  - apply (load_whole_tree_without_data sample_parse sample_ToString
             sample_storage_member "app" (JObj [("user", JNull)]) JUndefined
             w' Hlen eq_refl).
    right. reflexivity.
Defined.

(** X7 on [save()] around a pipeline that returns the action. *)
Lemma save_is_transparent_witness :
  let run := save sample_stringify sample_ToString
                  (mkSaveConfig JUndefined JUndefined JUndefined)
                  pass_through (JStr "tick") (fresh_world ∅ (JObj [])) in
  fst run = Returned (JStr "tick") /\
  reduxState (snd run) = JObj [] /\
  JStr "tick" = fst (pass_through (JStr "tick") (JObj [])).
Proof.
  intros run.
  destruct (save_is_transparent sample_stringify sample_ToString
              (mkSaveConfig JUndefined JUndefined JUndefined)
              pass_through (JStr "tick") (fresh_world ∅ (JObj [])))
    as [Hstate Hret].
  split; [reflexivity|]. split; [exact Hstate|].
  apply Hret. reflexivity.
Defined.

(** X25 on the namespaces getItem and length, with one item stored under
    each. *)
Lemma load_namespace_naming_a_member_witness :
  let w := fresh_world (<["getItem" := "{}"]> {["length" := "{}"]}) JNull in
  "getItem" <> "length" /\ sample_storage_member "getItem" = true /\
  load sample_parse sample_ToString sample_storage_member
       (mkLoadConfig JUndefined JUndefined (JStr "getItem") JUndefined JUndefined)
       w
  = (Threw SyntaxError, w) /\
  load sample_parse sample_ToString sample_storage_member
       (mkLoadConfig JUndefined JUndefined (JStr "length") JUndefined JUndefined)
       w
  = (sample_parse (sample_ToString (JNum (NInt 2))), w).
Proof.
  intros w.
  destruct (load_namespace_naming_a_member sample_parse sample_ToString
              sample_storage_member "getItem" JUndefined JUndefined w)
    as [Hmethod Hlength].
  split; [discriminate|]. split; [reflexivity|].
  split; [apply Hmethod; [discriminate|reflexivity]|].
  rewrite Hlength. reflexivity.
Defined.
